(** * UV-Vis plate-reader data analysis: background correction and
      spectral deconvolution

    A shallow embedding of the two analysis scripts

    - [Data Analysis/Curve Fitting & Machine Learning.py]   (module [CurveFitting])
    - [Data Analysis/Background Correction for PRD Reader.py] (module [BackgroundCorrection])

    together with the parts of pandas and numpy they rely on.

    Numbers.  A float64 is modelled by [num]: an exact rational kept in lowest
    terms, or one of the IEEE special values [+inf], [-inf], [NaN].  Rounding,
    overflow and the sign of zero are idealised away; division by zero and the
    propagation of [NaN] (pandas' missing value) follow IEEE 754, as numpy does.

    Library calls whose code is not part of the repository
    ([scipy.optimize.minimize], [scipy.optimize.curve_fit], [pandas.read_csv])
    are parameters of the functions that call them. *)

From Stdlib Require Import String ZArith QArith Qreduction Qabs Lqa Lia Bool Permutation List.
Import ListNotations.

Set Implicit Arguments.

(* ================================================================= *)
(** ** Python exceptions and fallible computations *)

Inductive exn : Type :=
| IndexError
| KeyError
| ValueError
| TypeError
| FileNotFoundError
| EmptyDataError
| ParserError
| RuntimeError.

Inductive result (A : Type) : Type :=
| Ok (a : A)
| Raise (e : exn).

Arguments Ok {A} a.
Arguments Raise {A} e.

Definition bind {A B : Type} (m : result A) (k : A -> result B) : result B :=
  match m with
  | Ok a => k a
  | Raise e => Raise e
  end.

Declare Scope py_scope.
Delimit Scope py_scope with py.
Notation "x <- m ;; k" := (bind m (fun x => k))
  (at level 61, m at next level, right associativity) : py_scope.
Notation "' pat <- m ;; k" := (bind m (fun x => match x with pat => k end))
  (at level 61, pat pattern, m at next level, right associativity) : py_scope.
Open Scope py_scope.

(* ================================================================= *)
(** ** float64, idealised *)

Inductive num : Type :=
| Fin (q : Q)
| PInf
| NInf
| NaN.

(** The infinity (or NaN) that a division by zero or a product with an
    infinity yields, from the sign of the finite operand. *)
Definition sign_inf (c : comparison) : num :=
  match c with
  | Gt => PInf
  | Lt => NInf
  | Eq => NaN
  end.

Definition num_add (x y : num) : num :=
  match x, y with
  | NaN, _ | _, NaN => NaN
  | Fin a, Fin b => Fin (Qred (a + b))
  | PInf, NInf | NInf, PInf => NaN
  | PInf, _ | _, PInf => PInf
  | NInf, _ | _, NInf => NInf
  end.

Definition num_sub (x y : num) : num :=
  match x, y with
  | NaN, _ | _, NaN => NaN
  | Fin a, Fin b => Fin (Qred (a - b))
  | PInf, PInf | NInf, NInf => NaN
  | PInf, _ => PInf
  | NInf, _ => NInf
  | Fin _, PInf => NInf
  | Fin _, NInf => PInf
  end.

Definition num_mul (x y : num) : num :=
  match x, y with
  | NaN, _ | _, NaN => NaN
  | Fin a, Fin b => Fin (Qred (a * b))
  | Fin a, PInf | PInf, Fin a => sign_inf (a ?= 0)
  | Fin a, NInf | NInf, Fin a => sign_inf (0 ?= a)
  | PInf, PInf | NInf, NInf => PInf
  | PInf, NInf | NInf, PInf => NInf
  end.

(** numpy's float64 division: a zero divisor raises nothing, it gives an
    infinity or NaN (and a RuntimeWarning on stderr). *)
Definition num_div (x y : num) : num :=
  match x, y with
  | NaN, _ | _, NaN => NaN
  | Fin a, Fin b =>
      if Qeq_bool b 0 then sign_inf (a ?= 0) else Fin (Qred (a / b))
  | Fin _, PInf | Fin _, NInf => Fin 0
  | PInf, Fin b => if Qle_bool 0 b then PInf else NInf
  | NInf, Fin b => if Qle_bool 0 b then NInf else PInf
  | PInf, PInf | PInf, NInf | NInf, PInf | NInf, NInf => NaN
  end.

(** [x ** 2] *)
Definition num_square (x : num) : num := num_mul x x.

(** [x <= y]; every comparison with NaN is false. *)
Definition num_leb (x y : num) : bool :=
  match x, y with
  | NaN, _ | _, NaN => false
  | NInf, _ | _, PInf => true
  | Fin a, Fin b => Qle_bool a b
  | _, _ => false
  end.

Definition is_finite (x : num) : bool :=
  match x with
  | Fin _ => true
  | _ => false
  end.

Definition is_nan (x : num) : bool :=
  match x with
  | NaN => true
  | _ => false
  end.

(** Equality of numbers up to the representation of the fraction. *)
Definition num_eq (x y : num) : Prop :=
  match x, y with
  | Fin a, Fin b => a == b
  | PInf, PInf | NInf, NInf | NaN, NaN => True
  | _, _ => False
  end.

Definition of_nat (n : nat) : num := Fin (inject_Z (Z.of_nat n)).

(* ================================================================= *)
(** ** numpy: one-dimensional arrays *)

Definition ndarray : Type := list num.

Fixpoint zip_with {A B C : Type} (f : A -> B -> C) (xs : list A) (ys : list B)
  : list C :=
  match xs, ys with
  | x :: xs', y :: ys' => f x y :: zip_with f xs' ys'
  | _, _ => []
  end.

(** Element-wise binary operation with numpy's broadcasting rule for
    one-dimensional operands: equal lengths, or one operand of length 1;
    anything else raises ValueError ("operands could not be broadcast"). *)
Definition broadcast (f : num -> num -> num) (xs ys : ndarray) : result ndarray :=
  if Nat.eqb (length xs) (length ys) then Ok (zip_with f xs ys)
  else match xs, ys with
       | [x], _ => Ok (map (f x) ys)
       | _, [y] => Ok (map (fun x => f x y) xs)
       | _, _ => Raise ValueError
       end.

Definition np_add : ndarray -> ndarray -> result ndarray := broadcast num_add.
Definition np_sub : ndarray -> ndarray -> result ndarray := broadcast num_sub.

(** [c * a] for a scalar [c] *)
Definition np_scale (c : num) (a : ndarray) : ndarray := map (num_mul c) a.

(** [a - c] for a scalar [c] *)
Definition np_sub_scalar (a : ndarray) (c : num) : ndarray :=
  map (fun x => num_sub x c) a.

(** [a ** 2] *)
Definition np_square (a : ndarray) : ndarray := map num_square a.

(** [np.sum(a)]; in exact arithmetic the order of summation is immaterial. *)
Definition np_sum (a : ndarray) : num := fold_left num_add a (Fin 0).

(** [np.mean(a)]: the sum divided by the length (NaN for an empty array). *)
Definition np_mean (a : ndarray) : num := num_div (np_sum a) (of_nat (length a)).

(** Python slice [a[start:stop]] for non-negative bounds; [stop = None] means
    the end of the sequence. *)
Definition slice {A : Type} (start : nat) (stop : option nat) (a : list A) : list A :=
  match stop with
  | None => skipn start a
  | Some e => firstn (e - start) (skipn start a)
  end.

(* ================================================================= *)
(** ** pandas: labelled tables *)

(** A column label: a string ('Row/Col') or an integer (a wavelength). *)
Inductive label : Type :=
| LStr (s : string)
| LInt (z : Z).

Definition label_eqb (a b : label) : bool :=
  match a, b with
  | LStr s, LStr t => String.eqb s t
  | LInt x, LInt y => Z.eqb x y
  | _, _ => false
  end.

(** A cell of an object (non-numeric) column: a string, or a missing value. *)
Inductive obj : Type :=
| OStr (s : string)
| OMissing.

(** A column with its dtype: float64/int64 ([NumCol]) or object ([ObjCol]). *)
Inductive column : Type :=
| NumCol (xs : list num)
| ObjCol (xs : list obj).

Inductive value : Type :=
| VNum (x : num)
| VObj (o : obj).

(** A table with a RangeIndex of [index_len] rows (what [read_csv] builds)
    and its columns in order.  [DataFrame] holds columns of either dtype;
    [NumFrame] and [ObjFrame] are what [select_dtypes] returns. *)
Record Frame (C : Type) : Type := mkFrame {
  index_len : nat;
  columns : list (label * C)
}.

Definition DataFrame : Type := Frame column.
Definition NumFrame : Type := Frame (list num).
Definition ObjFrame : Type := Frame (list obj).

(** A row of a numeric table, labelled by the columns. *)
Definition Series : Type := list (label * num).

(** [pd.DataFrame()] *)
Definition empty_frame : DataFrame := mkFrame 0 [].

(** [df.columns.tolist()] *)
Definition labels {C : Type} (df : Frame C) : list label := map fst (columns df).

Fixpoint lookup {C : Type} (l : label) (cols : list (label * C)) : option C :=
  match cols with
  | [] => None
  | (k, c) :: rest => if label_eqb l k then Some c else lookup l rest
  end.

Definition mem (l : label) (ls : list label) : bool := existsb (label_eqb l) ls.

Fixpoint unique (ls : list label) : bool :=
  match ls with
  | [] => true
  | l :: rest => negb (mem l rest) && unique rest
  end.

Definition col_length (c : column) : nat :=
  match c with
  | NumCol xs => length xs
  | ObjCol xs => length xs
  end.

(** [df.select_dtypes(include='number')] *)
Definition select_number (df : DataFrame) : NumFrame :=
  mkFrame (index_len df)
    (flat_map (fun lc => match snd lc with
                         | NumCol xs => [(fst lc, xs)]
                         | ObjCol _ => []
                         end) (columns df)).

(** [df.select_dtypes(exclude='number')] *)
Definition select_non_number (df : DataFrame) : ObjFrame :=
  mkFrame (index_len df)
    (flat_map (fun lc => match snd lc with
                         | NumCol _ => []
                         | ObjCol xs => [(fst lc, xs)]
                         end) (columns df)).

(** Cell [i] of a numeric column after alignment: a label or a row that the
    table lacks is NaN. *)
Definition cell (c : option (list num)) (i : nat) : num :=
  match c with
  | Some xs => nth i xs NaN
  | None => NaN
  end.

(** [df.loc[i, l]] of a numeric table *)
Definition at_num (f : NumFrame) (i : nat) (l : label) : num :=
  cell (lookup l (columns f)) i.

(** [df.loc[i, l]] of a table, when it has that cell *)
Definition df_at (df : DataFrame) (i : nat) (l : label) : option value :=
  match lookup l (columns df) with
  | Some (NumCol xs) => option_map VNum (nth_error xs i)
  | Some (ObjCol xs) => option_map VObj (nth_error xs i)
  | None => None
  end.

(** Labels of two aligned axes.  When both tables carry the same labels the
    order is the left one's.  For differing labels pandas orders the union
    itself (sorted when the labels compare); that order is not reproduced
    here, the left labels come first and the new ones after them.  The
    statements below that depend on the order are about equal labels. *)
Definition union_labels (ls rs : list label) : list label :=
  ls ++ filter (fun r => negb (mem r ls)) rs.

(** One cell of [left - right] or [left.subtract(right, fill_value=f)]:
    with a fill value, a NaN facing a number is replaced by it; two NaN stay
    NaN. *)
Definition sub_cells (fill_value : option num) (a b : num) : num :=
  match fill_value with
  | None => num_sub a b
  | Some f =>
      if is_nan a && is_nan b then NaN
      else num_sub (if is_nan a then f else a) (if is_nan b then f else b)
  end.

(** [left - right] ([fill_value = None]) and
    [left.subtract(right, fill_value=f)] on numeric tables: both axes are
    aligned, cells that one side lacks are NaN before the operation. *)
Definition frame_sub (fill_value : option num) (left right : NumFrame) : NumFrame :=
  let n := Nat.max (index_len left) (index_len right) in
  mkFrame n
    (map (fun l =>
            (l, map (fun i => sub_cells fill_value
                                (cell (lookup l (columns left)) i)
                                (cell (lookup l (columns right)) i))
                    (seq 0 n)))
         (union_labels (labels left) (labels right))).

(** Python's positional index into a sequence of [n] items: negative
    positions count from the end, anything outside raises IndexError. *)
Definition positional (n : nat) (i : Z) : result nat :=
  if ((0 <=? i) && (i <? Z.of_nat n))%Z then Ok (Z.to_nat i)
  else if ((- Z.of_nat n <=? i) && (i <? 0))%Z then Ok (Z.to_nat (Z.of_nat n + i))
  else Raise IndexError.

(** [df.iloc[i]] on a numeric table: the row as a Series over the columns *)
Definition iloc_row (f : NumFrame) (i : Z) : result Series :=
  k <- positional (index_len f) i ;;
  Ok (map (fun lc => (fst lc, nth k (snd lc) NaN)) (columns f)).

Definition series_get (s : Series) (l : label) : num :=
  match lookup l s with
  | Some x => x
  | None => NaN
  end.

(** [df.subtract(s, axis=1)]: the Series is aligned with the columns and
    subtracted from every row. *)
Definition subtract_series (f : NumFrame) (s : Series) : NumFrame :=
  mkFrame (index_len f)
    (map (fun l =>
            (l, map (fun i => num_sub (cell (lookup l (columns f)) i) (series_get s l))
                    (seq 0 (index_len f))))
         (union_labels (labels f) (map fst s))).

(** [a - b] on two Series: aligned on the union of their labels. *)
Definition series_sub (a b : Series) : Series :=
  map (fun l => (l, num_sub (series_get a l) (series_get b l)))
      (union_labels (map fst a) (map fst b)).

(** [row - arr] for a Series and an array: position by position, the
    lengths must agree. *)
Definition series_sub_array (row : Series) (arr : ndarray) : result Series :=
  if Nat.eqb (length row) (length arr)
  then Ok (zip_with (fun lx y => (fst lx, num_sub (snd lx) y)) row arr)
  else Raise ValueError.

(** [df.iloc[i, :]] as a Series and [df.iloc[i, :].values] as an array *)
Definition row_series (f : NumFrame) (i : nat) : Series :=
  map (fun lc => (fst lc, nth i (snd lc) NaN)) (columns f).

Definition row_values (f : NumFrame) (i : nat) : ndarray :=
  map (fun lc => nth i (snd lc) NaN) (columns f).

Fixpoint map_result {A B : Type} (f : A -> result B) (xs : list A) : result (list B) :=
  match xs with
  | [] => Ok []
  | x :: rest =>
      y <- f x ;;
      ys <- map_result f rest ;;
      Ok (y :: ys)
  end.

(** The table whose rows are the given Series; its columns are the labels
    of the first row ([default] for no row at all). *)
Definition frame_of_rows (default : list label) (rs : list Series) : NumFrame :=
  let ls := match rs with
            | [] => default
            | r :: _ => map fst r
            end in
  mkFrame (length rs) (map (fun l => (l, map (fun r => series_get r l) rs)) ls).

(** [df.apply(f, axis=1)] for [f] from a row to a Series: [f] runs on every
    row in turn, an exception in [f] propagates, the results are stacked. *)
Definition apply_axis1 (f : Series -> result Series) (df : NumFrame) : result NumFrame :=
  rs <- map_result f (map (row_series df) (seq 0 (index_len df))) ;;
  Ok (frame_of_rows (labels df) rs).

Definition pad {A : Type} (n : nat) (d : A) (xs : list A) : list A :=
  xs ++ repeat d (n - length xs).

(** [pd.concat([a, b], axis=1)]: the columns of [a] then those of [b], rows
    joined on the union of the two indexes. *)
Definition concat_columns (a : ObjFrame) (b : NumFrame) : DataFrame :=
  let n := Nat.max (index_len a) (index_len b) in
  mkFrame n
    (map (fun lc => (fst lc, ObjCol (pad n OMissing (snd lc)))) (columns a)
     ++ map (fun lc => (fst lc, NumCol (pad n NaN (snd lc)))) (columns b)).

Definition labels_eqb (xs ys : list label) : bool :=
  Nat.eqb (length xs) (length ys) && forallb (fun p => label_eqb (fst p) (snd p)) (combine xs ys).

(** [df.reindex(columns=cols)]: the listed columns in the listed order, a
    NaN column for a label the table lacks.  On a table with duplicate
    labels pandas raises ValueError unless [cols] is the table's own list. *)
Definition reindex_columns (df : DataFrame) (cols : list label) : result DataFrame :=
  if labels_eqb (labels df) cols then Ok df
  else if unique (labels df) then
    Ok (mkFrame (index_len df)
          (map (fun l => (l, match lookup l (columns df) with
                             | Some c => c
                             | None => NumCol (repeat NaN (index_len df))
                             end)) cols))
  else Raise ValueError.

(** [df.columns = new_labels]: ValueError on a length mismatch. *)
Definition set_columns (df : DataFrame) (new_labels : list label) : result DataFrame :=
  if Nat.eqb (length (columns df)) (length new_labels)
  then Ok (mkFrame (index_len df) (combine new_labels (map snd (columns df))))
  else Raise ValueError.

(** [range(a, b)] *)
Definition zrange (a b : Z) : list Z :=
  map (fun k => (a + Z.of_nat k)%Z) (seq 0 (Z.to_nat (b - a))).

(** [df.iloc[i, j]] for non-negative positions *)
Definition iloc_cell (df : DataFrame) (i j : nat) : result value :=
  match nth_error (columns df) j with
  | None => Raise IndexError
  | Some (_, NumCol xs) =>
      match nth_error xs i with
      | Some x => Ok (VNum x)
      | None => Raise IndexError
      end
  | Some (_, ObjCol xs) =>
      match nth_error xs i with
      | Some o => Ok (VObj o)
      | None => Raise IndexError
      end
  end.

(** [v * k / d] for a cell [v] and float constants [k], [d]; a string cell
    raises TypeError, a missing one is NaN. *)
Definition scaled (v : value) (k d : num) : result num :=
  match v with
  | VNum x => Ok (num_div (num_mul x k) d)
  | VObj OMissing => Ok NaN
  | VObj (OStr _) => Raise TypeError
  end.

(** [df.values[0]]: the first row of the table as an array; IndexError on a
    table without rows. *)
Definition values_row0 (f : NumFrame) : result ndarray :=
  if Nat.eqb (index_len f) 0 then Raise IndexError else Ok (row_values f 0).

(** Python slices with a negative bound: [xs[:-k]] and [xs[-k:]]. *)
Definition drop_last {A : Type} (k : nat) (xs : list A) : list A :=
  firstn (length xs - k) xs.

Definition take_last {A : Type} (k : nat) (xs : list A) : list A :=
  skipn (length xs - k) xs.

(* ================================================================= *)
(** ** scipy.optimize *)

Definition coeffs : Type := (num * num)%type.

(** [bounds]: one [(min, max)] pair per variable, [None] for no bound. *)
Definition bounds : Type := list (option num * option num).

(** The fields of [OptimizeResult] that matter here: the last iterate, the
    objective there, and whether the optimizer reports convergence. *)
Record OptimizeResult : Type := mkResult {
  x : coeffs;
  fun_value : num;
  success : bool;
  nit : nat
}.

(** The signature of [minimize(fun, x0, bounds=...)] on two variables.
    The objective may raise; so may the call. *)
Definition minimizer : Type :=
  (coeffs -> result num) -> coeffs -> bounds -> result OptimizeResult.

(** The signature of [curve_fit(f, xdata, ydata, p0=...)], returning the
    fitted parameters; [xdata] plays no part in the model function of the
    script and is left out. *)
Definition curve_fitter : Type :=
  (coeffs -> result ndarray) -> ndarray -> coeffs -> result coeffs.

(** A line written by [log_msg] or [print]: the text and the exception
    interpolated into it. *)
Definition log_line : Type := (string * exn)%type.

(** [pd.read_csv(path)] and [pd.read_csv(path, header=None)]: the flag says
    whether the first line is a header. *)
Definition csv_reader : Type := string -> bool -> result DataFrame.

(* ================================================================= *)
(** ** Curve Fitting & Machine Learning.py *)

Module CurveFitting.

Section Script.

Variable read_csv : csv_reader.
Variable minimize : minimizer.
Variable curve_fit : curve_fitter.

(** [load_data]: the table, and what [log_msg] wrote. *)
Definition load_data (path_input : string) : DataFrame * list log_line :=
  match read_csv path_input true with
  | Ok df => (df, [])
  | Raise FileNotFoundError =>
      (empty_frame, [("Error: File not found - "%string, FileNotFoundError)])
  | Raise EmptyDataError =>
      (empty_frame, [("Error: Empty file - "%string, EmptyDataError)])
  | Raise e =>
      (empty_frame, [("Error loading file: "%string, e)])
  end.

Definition load_data_new (path : string) (start_wavelength end_wavelength : Z)
  : DataFrame * list log_line :=
  match (df <- read_csv path false ;;
         set_columns df (LStr "Row/Col" ::
                         map LInt (zrange start_wavelength (end_wavelength + 1)))) with
  | Ok df => (df, [])
  | Raise FileNotFoundError =>
      (empty_frame, [("Error: File not found - "%string, FileNotFoundError)])
  | Raise EmptyDataError =>
      (empty_frame, [("Error: Empty file - "%string, EmptyDataError)])
  | Raise e =>
      (empty_frame, [("Error loading file: "%string, e)])
  end.

Definition separate_columns (df : DataFrame) : NumFrame * ObjFrame * list label :=
  let numeric_cols := select_number df in
  let non_numeric_cols := select_non_number df in
  let original_columns := labels df in
  (numeric_cols, non_numeric_cols, original_columns).

Definition recombine_data (numeric_data : NumFrame) (non_numeric_data : ObjFrame)
           (original_columns : list label) : result DataFrame :=
  let combined_df := concat_columns non_numeric_data numeric_data in
  reindex_columns combined_df original_columns.

Definition separate_subtract_and_recombine (raw_df plate_data : DataFrame)
           (blank_index : Z) : result DataFrame :=
  let '(numeric_cols_raw, non_numeric_cols_raw, original_columns_raw) :=
    separate_columns raw_df in
  let '(numeric_cols_plate, non_numeric_cols_plate, _) :=
    separate_columns plate_data in
  let plate_corrected_data := frame_sub None numeric_cols_raw numeric_cols_plate in
  blank_row <- iloc_row plate_corrected_data blank_index ;;
  let blank_corrected_data := subtract_series plate_corrected_data blank_row in
  recombine_data blank_corrected_data non_numeric_cols_raw original_columns_raw.

(** The closure [residuals] of [least_squares_deconvolution]. *)
Definition residuals (sample_spectrum styrene_spectrum polystyrene_spectrum : ndarray)
           (c : coeffs) : result num :=
  let '(c_styrene, c_polystyrene) := c in
  combined_spectrum <- np_add (np_scale c_styrene styrene_spectrum)
                              (np_scale c_polystyrene polystyrene_spectrum) ;;
  diff <- np_sub sample_spectrum combined_spectrum ;;
  Ok (np_sum (np_square diff)).

Definition least_squares_deconvolution
           (sample_spectrum styrene_spectrum polystyrene_spectrum : ndarray)
  : result coeffs :=
  res <- minimize (residuals sample_spectrum styrene_spectrum polystyrene_spectrum)
                  (Fin 0.5, Fin 0.5)
                  [(Some (Fin 0), None); (Some (Fin 0), None)] ;;
  Ok (x res).

(** The closure [model_func] of [scipy_curve_fit]. *)
Definition model_func (styrene_spectrum polystyrene_spectrum : ndarray)
           (c : coeffs) : result ndarray :=
  let '(c_styrene, c_polystyrene) := c in
  np_add (np_scale c_styrene styrene_spectrum)
         (np_scale c_polystyrene polystyrene_spectrum).

(** [scipy_curve_fit]: the parameters, or [None] and a log line. *)
Definition scipy_curve_fit
           (sample_spectrum styrene_spectrum polystyrene_spectrum : ndarray)
  : option coeffs * list log_line :=
  match curve_fit (model_func styrene_spectrum polystyrene_spectrum)
                  sample_spectrum (Fin 0.5, Fin 0.5) with
  | Ok params => (Some params, [])
  | Raise e => (None, [("Error in curve fitting: "%string, e)])
  end.

(** What a [deconvolution_method] may do: return a value (possibly
    [None]) with its log lines, or raise. *)
Definition deconvolution_method : Type :=
  ndarray -> ndarray -> ndarray -> result (option coeffs * list log_line).

Definition by_least_squares : deconvolution_method :=
  fun sample styrene polystyrene =>
    c <- least_squares_deconvolution sample styrene polystyrene ;;
    Ok (Some c, []).

Definition by_curve_fit : deconvolution_method :=
  fun sample styrene polystyrene =>
    Ok (scipy_curve_fit sample styrene polystyrene).

Definition fit_spectra
           (sample_spectrum styrene_spectrum polystyrene_spectrum : ndarray)
           (method : deconvolution_method) : option coeffs * list log_line :=
  match method sample_spectrum styrene_spectrum polystyrene_spectrum with
  | Ok r => r
  | Raise e => (None, [("Error during spectrum fitting: "%string, e)])
  end.

Definition sum_sq_total (sample_spectrum : ndarray) : num :=
  np_sum (np_square (np_sub_scalar sample_spectrum (np_mean sample_spectrum))).

Definition calculate_r_squared (sample_spectrum fitted_spectrum : ndarray)
  : result num :=
  diff <- np_sub sample_spectrum fitted_spectrum ;;
  let SS_res := np_sum (np_square diff) in
  let SS_tot := sum_sq_total sample_spectrum in
  Ok (num_sub (Fin 1) (num_div SS_res SS_tot)).

(** One turn of the loop of [process_samples] (with [plot_spectra=False];
    the figures and the log are not part of the result): the two fitted
    coefficients and the two actual concentrations of row [i]. *)
Definition process_sample (data_df volumes_df : DataFrame)
           (styrene_spectrum polystyrene_spectrum : ndarray)
           (range_start : nat) (range_end : option nat)
           (method : deconvolution_method) (i : nat)
  : result (num * num * num * num) :=
  let unknown_spectrum :=
    slice range_start range_end (row_values (select_number data_df) i) in
  match fst (fit_spectra unknown_spectrum styrene_spectrum polystyrene_spectrum method) with
  | None => Raise TypeError
  | Some (c_styrene_opt, c_polystyrene_opt) =>
      fitted_spectrum <- np_add (np_scale c_styrene_opt styrene_spectrum)
                                (np_scale c_polystyrene_opt polystyrene_spectrum) ;;
      v0 <- iloc_cell volumes_df i 0 ;;
      styrene_actual <- scaled v0 (Fin 0.025) (Fin 300) ;;
      v1 <- iloc_cell volumes_df i 1 ;;
      ps_actual <- scaled v1 (Fin 0.25) (Fin 300) ;;
      Ok (c_styrene_opt, styrene_actual, c_polystyrene_opt, ps_actual)
  end.

(** [process_samples]: the four lists, in the order of the rows. *)
Definition process_samples (data_df volumes_df : DataFrame)
           (styrene_spectrum polystyrene_spectrum : ndarray)
           (range_start : nat) (range_end : option nat)
           (method : deconvolution_method)
  : result (list num * list num * list num * list num) :=
  per_row <- map_result
               (process_sample data_df volumes_df styrene_spectrum
                               polystyrene_spectrum range_start range_end method)
               (seq 0 (index_len data_df)) ;;
  let styrene_components_pred := map (fun r => fst (fst (fst r))) per_row in
  let styrene_components_actual := map (fun r => snd (fst (fst r))) per_row in
  let ps_components_pred := map (fun r => snd (fst r)) per_row in
  let ps_components_actual := map snd per_row in
  Ok (styrene_components_pred, styrene_components_actual,
      ps_components_pred, ps_components_actual).

(** [prepare_spectra]: the two reference spectra (row 0 of the numeric
    columns, sliced), or [(None, None)], and what was logged on the way. *)
Definition prepare_spectra (styrene_spectrum_path polystyrene_spectrum_path : string)
           (range_start : nat) (range_end : option nat)
  : (option ndarray * option ndarray) * list log_line :=
  let '(styrene_spectrum, log1) := load_data_new styrene_spectrum_path 220 1000 in
  let '(polystyrene_spectrum, log2) := load_data_new polystyrene_spectrum_path 220 1000 in
  let '(num_styrene, _, _) := separate_columns styrene_spectrum in
  let '(num_polystyrene, _, _) := separate_columns polystyrene_spectrum in
  match (s <- values_row0 num_styrene ;;
         p <- values_row0 num_polystyrene ;;
         Ok (slice range_start range_end s, slice range_start range_end p)) with
  | Ok (s, p) => ((Some s, Some p), log1 ++ log2)
  | Raise FileNotFoundError =>
      ((None, None),
       log1 ++ log2 ++ [("Error: File not found. "%string, FileNotFoundError)])
  | Raise e =>
      ((None, None), log1 ++ log2 ++ [("Error in preparing spectra: "%string, e)])
  end.

(** The split of [curve_fitting_lin_reg]: [xs[:-20]] to train on, [xs[-20:]]
    to test on. *)
Definition train_test (xs : list num) : list num * list num :=
  (drop_last 20 xs, take_last 20 xs).

End Script.

End CurveFitting.

(* ================================================================= *)
(** ** Console and files *)

(** What a script leaves behind: the columns it printed and the tables it
    wrote with [to_csv], oldest first. *)
Record world : Type := mkWorld {
  stdout : list column;
  files : list (string * NumFrame)
}.

(** A statement: it changes the world and returns, or raises. *)
Definition io (A : Type) : Type := world -> world * result A.

Definition io_ret {A : Type} (a : A) : io A := fun w => (w, Ok a).

Definition io_bind {A B : Type} (m : io A) (k : A -> io B) : io B :=
  fun w => match m w with
           | (w', Ok a) => k a w'
           | (w', Raise e) => (w', Raise e)
           end.

Definition lift {A : Type} (r : result A) : io A := fun w => (w, r).

Definition print (c : column) : io unit :=
  fun w => (mkWorld (stdout w ++ [c]) (files w), Ok tt).

(** [df.to_csv(path)]; the write itself is taken to succeed. *)
Definition to_csv (df : NumFrame) (path : string) : io unit :=
  fun w => (mkWorld (stdout w) (files w ++ [(path, df)]), Ok tt).

Declare Scope io_scope.
Delimit Scope io_scope with io.
Notation "x <- m ;; k" := (io_bind m (fun x => k))
  (at level 61, m at next level, right associativity) : io_scope.
Notation "m ;; k" := (io_bind m (fun _ => k))
  (at level 61, right associativity) : io_scope.

(** [df[l]]: KeyError for a label the table lacks. *)
Definition getitem {C : Type} (df : Frame C) (l : label) : result C :=
  match lookup l (columns df) with
  | Some c => Ok c
  | None => Raise KeyError
  end.

(** [s.head(n)] *)
Definition head (n : nat) (c : column) : column :=
  match c with
  | NumCol xs => NumCol (firstn n xs)
  | ObjCol xs => ObjCol (firstn n xs)
  end.

(** [df.iloc[:, j:]] *)
Definition iloc_columns_from {C : Type} (j : nat) (df : Frame C) : Frame C :=
  mkFrame (index_len df) (skipn j (columns df)).

(** The operands of table arithmetic: an object column (strings) raises
    TypeError. *)
Definition as_numeric (df : DataFrame) : result NumFrame :=
  cols <- map_result (fun lc => match snd lc with
                                | NumCol xs => Ok (fst lc, xs)
                                | ObjCol _ => Raise TypeError
                                end) (columns df) ;;
  Ok (mkFrame (index_len df) cols).

(** [left - right] on two tables *)
Definition dataframe_sub (left right : DataFrame) : result NumFrame :=
  l <- as_numeric left ;;
  r <- as_numeric right ;;
  Ok (frame_sub None l r).

(* ================================================================= *)
(** ** Background Correction for PRD Reader.py *)

Module BackgroundCorrection.

Section Script.

Variable read_csv : csv_reader.
Variable minimize : minimizer.

(** [load_data]: the table or [None], and what was printed. *)
Definition load_data (path_input : string) : option DataFrame * list log_line :=
  match read_csv path_input true with
  | Ok df => (Some df, [])
  | Raise e => (None, [("Error loading file: "%string, e)])
  end.

Definition load_data_new (path : string) : result DataFrame :=
  df <- read_csv path false ;;
  set_columns df (LStr "Row/Col" :: map LInt (zrange 220 1001)).

Definition separate_columns (df : DataFrame) : NumFrame * ObjFrame * list label :=
  let numeric_cols := select_number df in
  let non_numeric_cols := select_non_number df in
  let original_columns := labels df in
  (numeric_cols, non_numeric_cols, original_columns).

Definition subtract_background (numeric_raw numeric_plate : NumFrame) : NumFrame :=
  frame_sub (Some (Fin 0)) numeric_raw numeric_plate.

Definition subtract_blank_row (df : NumFrame) : result NumFrame :=
  k <- positional (index_len df) 0 ;;
  let blank_row := row_values df k in
  apply_axis1 (fun row => series_sub_array row blank_row) df.

(** The reordering by [original_columns] is commented out in the source. *)
Definition recombine_data (numeric_data : NumFrame) (non_numeric_data : ObjFrame)
           (original_columns : list label) : DataFrame :=
  let combined_df := concat_columns non_numeric_data numeric_data in
  combined_df.

Definition separate_subtract_and_recombine (raw_df plate_data : DataFrame)
  : result DataFrame :=
  let '(numeric_cols_raw, non_numeric_cols_raw, original_columns_raw) :=
    separate_columns raw_df in
  let '(numeric_cols_plate, non_numeric_cols_plate, _) :=
    separate_columns plate_data in
  let plate_background_removed :=
    subtract_background numeric_cols_raw numeric_cols_plate in
  blank_removed <- subtract_blank_row plate_background_removed ;;
  let final_plate :=
    recombine_data blank_removed non_numeric_cols_raw original_columns_raw in
  Ok final_plate.

(** The closure [residuals] of [fit_spectra]. *)
Definition residuals (sample_spectrum styrene_spectrum polystyrene_spectrum : ndarray)
           (c : coeffs) : result num :=
  let '(c_styrene, c_polystyrene) := c in
  combined_spectrum <- np_add (np_scale c_styrene styrene_spectrum)
                              (np_scale c_polystyrene polystyrene_spectrum) ;;
  diff <- np_sub sample_spectrum combined_spectrum ;;
  Ok (np_sum (np_square diff)).

Definition fit_spectra
           (sample_spectrum styrene_spectrum polystyrene_spectrum : ndarray)
  : result coeffs :=
  let initial_guess := (Fin 0.5, Fin 0.5) in
  let bounds := [(Some (Fin 0), None); (Some (Fin 0), None)] in
  res <- minimize (residuals sample_spectrum styrene_spectrum polystyrene_spectrum)
                  initial_guess bounds ;;
  Ok (x res).

Definition sum_sq_total (sample_spectrum : ndarray) : num :=
  np_sum (np_square (np_sub_scalar sample_spectrum (np_mean sample_spectrum))).

Definition calculate_r_squared (sample_spectrum fitted_spectrum : ndarray)
  : result num :=
  diff <- np_sub sample_spectrum fitted_spectrum ;;
  let SS_res := np_sum (np_square diff) in
  let SS_tot := sum_sq_total sample_spectrum in
  Ok (num_sub (Fin 1) (num_div SS_res SS_tot)).

(** One turn of the loop of [process_samples] (with [plot_spectra=False];
    the debugging print is not part of the result). *)
Definition process_sample (data_df volumes_df : DataFrame)
           (styrene_spectrum polystyrene_spectrum : ndarray)
           (range_start : nat) (range_end : option nat) (i : nat)
  : result (num * num * num * num) :=
  let unknown_spectrum :=
    slice range_start range_end (row_values (select_number data_df) i) in
  '(c_styrene_opt, c_polystyrene_opt) <-
    fit_spectra unknown_spectrum styrene_spectrum polystyrene_spectrum ;;
  fitted_spectrum <- np_add (np_scale c_styrene_opt styrene_spectrum)
                            (np_scale c_polystyrene_opt polystyrene_spectrum) ;;
  v0 <- iloc_cell volumes_df i 0 ;;
  styrene_actual <- scaled v0 (Fin 0.025) (Fin 300) ;;
  v1 <- iloc_cell volumes_df i 1 ;;
  ps_actual <- scaled v1 (Fin 0.25) (Fin 300) ;;
  Ok (c_styrene_opt, styrene_actual, c_polystyrene_opt, ps_actual).

Definition process_samples (data_df volumes_df : DataFrame)
           (styrene_spectrum polystyrene_spectrum : ndarray)
           (range_start : nat) (range_end : option nat)
  : result (list num * list num * list num * list num) :=
  per_row <- map_result
               (process_sample data_df volumes_df styrene_spectrum
                               polystyrene_spectrum range_start range_end)
               (seq 0 (index_len data_df)) ;;
  let styrene_components_pred := map (fun r => fst (fst (fst r))) per_row in
  let styrene_components_actual := map (fun r => snd (fst (fst r))) per_row in
  let ps_components_pred := map (fun r => snd (fst r)) per_row in
  let ps_components_actual := map snd per_row in
  Ok (styrene_components_pred, styrene_components_actual,
      ps_components_pred, ps_components_actual).

Definition plate_path : string :=
  "C:\Users\Lachlan Alexander\Desktop\Uni\2024 - Honours\Experiments\Calibration Experiments\Toluene\241004_1207.csv".
Definition data_path : string :=
  "C:\Users\Lachlan Alexander\Desktop\Uni\2024 - Honours\Experiments\Calibration Experiments\Toluene\241004_1222.csv".
Definition out_path : string :=
  "C:\Users\Lachlan Alexander\Desktop\Uni\2024 - Honours\Experiments\Calibration Experiments\Toluene\tolune cal.csv".

(** [corrected] of [main]: the data minus the plate, first column dropped. *)
Definition plate_corrected (plate data : DataFrame) : result NumFrame :=
  dataframe_sub (iloc_columns_from 1 data) (iloc_columns_from 1 plate).

Definition main : io unit :=
  (plate <- lift (load_data_new plate_path) ;;
   data <- lift (load_data_new data_path) ;;
   p260 <- lift (getitem plate (LInt 260)) ;;
   print (head 20 p260) ;;
   d260 <- lift (getitem data (LInt 260)) ;;
   print (head 20 d260) ;;
   corrected <- lift (plate_corrected plate data) ;;
   k <- lift (positional (index_len corrected) 11) ;;
   let blank_row := skipn 1 (row_series corrected k) in
   _ <- lift (apply_axis1 (fun row => Ok (series_sub row blank_row)) corrected) ;;
   c260 <- lift (getitem corrected (LInt 260)) ;;
   print (head 20 (NumCol c260)) ;;
   to_csv corrected out_path)%io.

Definition prepare_spectra (styrene_spectrum_path polystyrene_spectrum_path : string)
           (range_start : nat) (range_end : option nat) : result (ndarray * ndarray) :=
  styrene_spectrum <- load_data_new styrene_spectrum_path ;;
  polystyrene_spectrum <- load_data_new polystyrene_spectrum_path ;;
  let '(num_styrene, _, _) := separate_columns styrene_spectrum in
  let '(num_polystyrene, _, _) := separate_columns polystyrene_spectrum in
  s <- values_row0 num_styrene ;;
  p <- values_row0 num_polystyrene ;;
  Ok (slice range_start range_end s, slice range_start range_end p).

(** The split of [curve_fitting_lin_reg] and [main_4]: [xs[:-20]] to train
    on, [xs[-20:]] to test on. *)
Definition train_test (xs : list num) : list num * list num :=
  (drop_last 20 xs, take_last 20 xs).

End Script.

End BackgroundCorrection.

(* ================================================================= *)
(** ** Predicates used in the statements *)

(** A table as [read_csv] builds it: distinct labels, every column as long
    as the index. *)
Definition well_formed (df : DataFrame) : Prop :=
  NoDup (labels df) /\
  Forall (fun lc => col_length (snd lc) = index_len df) (columns df).

(** No numeric cell is NaN or infinite. *)
Definition all_finite (df : DataFrame) : Prop :=
  forall l xs, In (l, NumCol xs) (columns df) -> Forall (fun v => is_finite v = true) xs.

(** The numeric labels of a table, in order. *)
Definition numeric_labels (df : DataFrame) : list label := labels (select_number df).

(** Every numeric cell of the table is the number [v]. *)
Definition numeric_cells_all (v : num) (df : DataFrame) : Prop :=
  forall l xs, In (l, NumCol xs) (columns df) -> Forall (fun c => c = v) xs.

Definition in_range (b : option num * option num) (v : num) : bool :=
  match fst b with
  | Some lo => num_leb lo v
  | None => true
  end &&
  match snd b with
  | Some hi => num_leb v hi
  | None => true
  end.

(** [c] lies inside the box [b]. *)
Definition within_bounds (b : bounds) (c : coeffs) : bool :=
  match b with
  | [b1; b2] => in_range b1 (fst c) && in_range b2 (snd c)
  | _ => false
  end.

(** The contract of a bounded optimizer: what it returns is inside the
    bounds it was given. *)
Definition respects_bounds (minimize : minimizer) : Prop :=
  forall f x0 b res, minimize f x0 b = Ok res -> within_bounds b (x res) = true.




(** An optimizer run that stops where it started and reports that it did
    not converge. *)
Definition stalled : minimizer :=
  fun f x0 _ => v <- f x0 ;; Ok (mkResult x0 v false 0).

(** An optimizer that answers with the point it was handed when that point
    is feasible, and refuses infeasible input as scipy does. *)
Definition feasible_start : minimizer :=
  fun f x0 b =>
    if within_bounds b x0 then v <- f x0 ;; Ok (mkResult x0 v true 0)
    else Raise ValueError.






(** A reader for which no file exists. *)
Definition no_files : csv_reader := fun _ _ => Raise FileNotFoundError.

(* ================================================================= *)
(** ** Tables, bounds and quantities named in the statements *)

(** What both [calculate_r_squared] return once the residual sum [r] and the
    total sum [t] are finite: the quotient is taken whatever [t] is. *)
Definition r_squared_value (r t : Q) : num :=
  if Qeq_bool t 0 then (if Qeq_bool r 0 then NaN else NInf)
  else Fin (Qred (1 - Qred (r / t))).

Definition start : coeffs := (Fin 0.5, Fin 0.5).
Definition nonnegative_box : bounds := [(Some (Fin 0), None); (Some (Fin 0), None)].

(** The table [f] minus its own row [k], cell by cell. *)
Definition minus_row (f : NumFrame) (k : nat) : NumFrame :=
  mkFrame (index_len f)
    (map (fun l => (l, map (fun i => num_sub (at_num f i l) (at_num f k l))
                           (seq 0 (index_len f))))
         (labels f)).

(** Row [i] of the table with the values of row [k] subtracted in place. *)
Definition row_minus_row (f : NumFrame) (k i : nat) : Series :=
  map (fun lc => (fst lc, num_sub (nth i (snd lc) NaN) (nth k (snd lc) NaN)))
      (columns f).

(** The plate-corrected cell of row [i], column [l]. *)
Definition corrected_cell (fill : option num) (raw plate : DataFrame) (i : nat) (l : label) : num :=
  sub_cells fill (at_num (select_number raw) i l) (at_num (select_number plate) i l).

(** The plate-corrected column [l] with its own cell of row [k] taken off. *)
Definition blank_corrected_column (fill : option num) (raw plate : DataFrame) (k : nat) (l : label)
  : list num :=
  map (fun i => num_sub (corrected_cell fill raw plate i l) (corrected_cell fill raw plate k l))
      (seq 0 (index_len raw)).

(** A two-well table and its plate background. *)
Definition two_wells : DataFrame :=
  mkFrame 2 [(LStr "Row/Col", ObjCol [OStr "A1"; OStr "A2"]);
             (LInt 220, NumCol [Fin 1; Fin 0.5]);
             (LInt 221, NumCol [Fin 2; Fin 0.25])].

Definition two_wells_plate : DataFrame :=
  mkFrame 2 [(LStr "Row/Col", ObjCol [OStr "A1"; OStr "A2"]);
             (LInt 220, NumCol [Fin 0.25; Fin 0.5]);
             (LInt 221, NumCol [Fin 1; Fin 1])].

(** One well whose reading at 220 nm is missing. *)
Definition missing_reading : DataFrame :=
  mkFrame 1 [(LStr "Row/Col", ObjCol [OStr "A1"]); (LInt 220, NumCol [NaN])].

(** Two wells, the blank one (row 0) with a missing reading, and a plate
    background of zeros. *)
Definition blank_missing : DataFrame :=
  mkFrame 2 [(LStr "Row/Col", ObjCol [OStr "A1"; OStr "A2"]);
             (LInt 220, NumCol [NaN; Fin 1])].

Definition zero_plate : DataFrame :=
  mkFrame 2 [(LStr "Row/Col", ObjCol [OStr "A1"; OStr "A2"]);
             (LInt 220, NumCol [Fin 0; Fin 0])].

(** A table whose numeric column comes before its identifier column. *)
Definition numeric_first : DataFrame :=
  mkFrame 1 [(LInt 220, NumCol [Fin 1]); (LStr "Row/Col", ObjCol [OStr "A1"])].


(** Dosed volumes of the two wells. *)
Definition two_wells_volumes : DataFrame :=
  mkFrame 2 [(LStr "Styrene", NumCol [Fin 10; Fin 20]);
             (LStr "Polystyrene", NumCol [Fin 30; Fin 40])].

Definition two_wells_lists : list num * list num * list num * list num :=
  ([Fin 0.5; Fin 0.5], [Fin (1 # 1200); Fin (1 # 600)],
   [Fin 0.5; Fin 0.5], [Fin (1 # 40); Fin (1 # 30)]).



(** The labels [load_data_new] gives a plate-reader table. *)
Definition reader_labels : list label := LStr "Row/Col" :: map LInt (zrange 220 1001).

(** A plate-reader dump of twelve wells as [read_csv(path, header=None)]
    parses it: 782 columns numbered from 0, the first with the well names,
    reading [f i] in every wavelength column of row [i]. *)
Definition reading (f : nat -> Q) : DataFrame :=
  mkFrame 12
    ((LInt 0, ObjCol (repeat (OStr "A1") 12))
     :: map (fun z => (LInt z, NumCol (map (fun i => Fin (f i)) (seq 0 12))))
            (zrange 1 782)).

(** The same table under the labels [load_data_new] gives it. *)
Definition relabelled (f : nat -> Q) : DataFrame :=
  mkFrame 12
    ((LStr "Row/Col", ObjCol (repeat (OStr "A1") 12))
     :: map (fun z => (LInt z, NumCol (map (fun i => Fin (f i)) (seq 0 12))))
            (zrange 220 1001)).

(** A disk with the two files of [main]: an empty plate reading 1
    everywhere, and data reading [i + 2] in row [i]. *)
Definition toluene_files : csv_reader :=
  fun path header =>
    if String.eqb path BackgroundCorrection.plate_path then Ok (reading (fun _ => 1))
    else if String.eqb path BackgroundCorrection.data_path
         then Ok (reading (fun i => inject_Z (Z.of_nat i) + 2))
         else Raise FileNotFoundError.

(** Data minus plate for those two files: [i + 1] in row [i]. *)
Definition toluene_corrected : NumFrame :=
  mkFrame 12
    (map (fun z => (LInt z, map (fun i => Fin (inject_Z (Z.of_nat i) + 1)) (seq 0 12)))
         (zrange 220 1001)).

(** The combination [c1 * s + c2 * t] at one wavelength. *)
Definition mix (c : coeffs) (xy : Q * Q) : num :=
  num_add (num_mul (fst c) (Fin (fst xy))) (num_mul (snd c) (Fin (snd xy))).

(** An object (identifier) column. *)
Definition is_object (lc : label * column) : bool :=
  match snd lc with
  | ObjCol _ => true
  | NumCol _ => false
  end.

(** The labels [load_data_new] gives a table read for the wavelengths
    [start_wavelength] to [end_wavelength]. *)
Definition wavelength_labels (start_wavelength end_wavelength : Z) : list label :=
  LStr "Row/Col" :: map LInt (zrange start_wavelength (end_wavelength + 1)).

(** The two-well table as [read_csv(path, header=None)] parses it, and a
    disk that holds it under one name. *)
Definition two_wells_parsed : DataFrame :=
  mkFrame 2 [(LInt 0, ObjCol [OStr "A1"; OStr "A2"]);
             (LInt 1, NumCol [Fin 1; Fin 0.5]);
             (LInt 2, NumCol [Fin 2; Fin 0.25])].

Definition two_wells_disk : csv_reader :=
  fun path header =>
    if String.eqb path "wells.csv" then Ok two_wells_parsed else Raise FileNotFoundError.

(** A deconvolution method that always raises, and an optimizer that does. *)
Definition failing_method : CurveFitting.deconvolution_method :=
  fun _ _ _ => Raise RuntimeError.

Definition failing_minimize : minimizer := fun _ _ _ => Raise RuntimeError.

(** Spectrum [i] of the table as [process_samples] cuts it. *)
Definition spectrum_of (data_df : DataFrame) (range_start : nat) (range_end : option nat)
           (i : nat) : ndarray :=
  slice range_start range_end (row_values (select_number data_df) i).

(* ================================================================= *)
(** ** Labels and lookups *)

Lemma label_eqb_eq (a b : label) : label_eqb a b = true <-> a = b.
Proof.
  destruct a as [s|z], b as [t|y]; simpl; split; intro H;
    try discriminate; try congruence.
  - apply String.eqb_eq in H. now subst.
  - inversion H. apply String.eqb_refl.
  - apply Z.eqb_eq in H. now subst.
  - inversion H. apply Z.eqb_refl.
Qed.

Lemma label_eqb_refl (a : label) : label_eqb a a = true.
Proof. now apply label_eqb_eq. Qed.

Lemma label_eqb_neq (a b : label) : label_eqb a b = false <-> a <> b.
Proof.
  split; intro H.
  - intro E. apply label_eqb_eq in E. congruence.
  - destruct (label_eqb a b) eqn:E; [|reflexivity].
    apply label_eqb_eq in E. contradiction.
Qed.

Lemma mem_In (l : label) (ls : list label) : mem l ls = true <-> In l ls.
Proof.
  unfold mem. rewrite existsb_exists. split.
  - intros [y [Hy E]]. apply label_eqb_eq in E. now subst.
  - intro H. exists l. split; [assumption | apply label_eqb_refl].
Qed.

Lemma mem_not_In (l : label) (ls : list label) : mem l ls = false <-> ~ In l ls.
Proof.
  rewrite <- mem_In. destruct (mem l ls); split; intro H; congruence.
Qed.

Lemma unique_NoDup (ls : list label) : unique ls = true <-> NoDup ls.
Proof.
  induction ls as [|l ls IH]; simpl.
  - split; [constructor | reflexivity].
  - rewrite andb_true_iff, negb_true_iff, mem_not_In, IH. split.
    + intros [H1 H2]. now constructor.
    + intro H. inversion H. now split.
Qed.

Lemma labels_eqb_eq (xs ys : list label) : labels_eqb xs ys = true <-> xs = ys.
Proof.
  unfold labels_eqb. revert ys.
  induction xs as [|a xs IH]; intros [|b ys]; simpl; split; intro H;
    try discriminate; try reflexivity.
  - apply andb_true_iff in H as [Hl H]. apply andb_true_iff in H as [Hab H].
    apply label_eqb_eq in Hab. subst. f_equal. apply IH.
    simpl in Hl. now rewrite Hl, H.
  - inversion H; subst.
    assert (E : ys = ys) by reflexivity. apply IH in E.
    apply andb_true_iff in E as [E1 E2].
    now rewrite E1, label_eqb_refl, E2.
Qed.

Lemma union_labels_incl (ls rs : list label) :
  (forall r, In r rs -> In r ls) -> union_labels ls rs = ls.
Proof.
  intro H. unfold union_labels.
  replace (filter (fun r => negb (mem r ls)) rs) with (@nil label).
  - apply app_nil_r.
  - symmetry. induction rs as [|r rs IH]; simpl; [reflexivity|].
    assert (Hr : mem r ls = true) by (apply mem_In, H; now left).
    rewrite Hr. simpl. apply IH. intros. apply H. now right.
Qed.

Lemma union_labels_same (ls : list label) : union_labels ls ls = ls.
Proof. apply union_labels_incl. auto. Qed.

Lemma lookup_keyed {C : Type} (F : label -> C) (l : label) (ls : list label) :
  In l ls -> lookup l (map (fun k => (k, F k)) ls) = Some (F l).
Proof.
  induction ls as [|k ls IH]; simpl; [contradiction|].
  intros [E|H].
  - subst. now rewrite label_eqb_refl.
  - destruct (label_eqb l k) eqn:E.
    + apply label_eqb_eq in E. now subst.
    + now apply IH.
Qed.

Lemma lookup_keyed_none {C : Type} (F : label -> C) (l : label) (ls : list label) :
  ~ In l ls -> lookup l (map (fun k => (k, F k)) ls) = None.
Proof.
  induction ls as [|k ls IH]; simpl; [reflexivity|].
  intro H. destruct (label_eqb l k) eqn:E.
  - apply label_eqb_eq in E. subst. exfalso. apply H. now left.
  - apply IH. intro. apply H. now right.
Qed.

Lemma lookup_In {C : Type} (l : label) (c : C) (cols : list (label * C)) :
  NoDup (map fst cols) -> (lookup l cols = Some c <-> In (l, c) cols).
Proof.
  induction cols as [|[k d] cols IH]; simpl; intro ND.
  - split; [discriminate | contradiction].
  - inversion ND as [|? ? Hk ND']; subst.
    destruct (label_eqb l k) eqn:E.
    + apply label_eqb_eq in E. subst. split.
      * intro H. inversion H. now left.
      * intros [H|H]; [now inversion H|].
        exfalso. apply Hk. change k with (fst (k, c)). now apply in_map.
    + rewrite (IH ND'). split.
      * intro. now right.
      * intros [H|H]; [|assumption].
        inversion H; subst. rewrite label_eqb_refl in E. discriminate.
Qed.

Lemma lookup_none {C : Type} (l : label) (cols : list (label * C)) :
  lookup l cols = None <-> ~ In l (map fst cols).
Proof.
  induction cols as [|[k d] cols IH]; simpl.
  - split; auto.
  - destruct (label_eqb l k) eqn:E.
    + apply label_eqb_eq in E. subst. split; [discriminate|].
      intro H. exfalso. apply H. now left.
    + rewrite IH. apply label_eqb_neq in E. split.
      * intros H [H1|H1]; [congruence | contradiction].
      * intros H H1. apply H. now right.
Qed.

Lemma lookup_some_In {C : Type} (l : label) (c : C) (cols : list (label * C)) :
  lookup l cols = Some c -> In (l, c) cols.
Proof.
  induction cols as [|[k d] cols IH]; simpl; [discriminate|].
  destruct (label_eqb l k) eqn:E.
  - apply label_eqb_eq in E. subst. intro H. inversion H. now left.
  - intro. right. now apply IH.
Qed.

Lemma lookup_app {C : Type} (l : label) (xs ys : list (label * C)) :
  lookup l (xs ++ ys) =
  match lookup l xs with
  | Some c => Some c
  | None => lookup l ys
  end.
Proof.
  induction xs as [|[k d] xs IH]; simpl; [reflexivity|].
  destruct (label_eqb l k); [reflexivity | apply IH].
Qed.

Lemma lookup_map_snd {C D : Type} (g : C -> D) (l : label) (cols : list (label * C)) :
  lookup l (map (fun lc => (fst lc, g (snd lc))) cols) = option_map g (lookup l cols).
Proof.
  induction cols as [|[k d] cols IH]; simpl; [reflexivity|].
  destruct (label_eqb l k); [reflexivity | apply IH].
Qed.

Lemma nth_map_seq {A : Type} (f : nat -> A) (n i : nat) (d : A) :
  (i < n)%nat -> nth i (map f (seq 0 n)) d = f i.
Proof.
  intro H. rewrite (nth_indep _ d (f O)) by now rewrite length_map, length_seq.
  rewrite (map_nth f (seq 0 n) O i). now rewrite seq_nth.
Qed.

(* ================================================================= *)
(** ** Arithmetic on [num] *)

Arguments Qred : simpl never.
Arguments Qplus : simpl never.
Arguments Qminus : simpl never.
Arguments Qmult : simpl never.
Arguments Qdiv : simpl never.
Arguments Qcompare : simpl never.
Arguments Qeq_bool : simpl never.
Arguments Qle_bool : simpl never.

Lemma num_sub_diag (v : num) : is_finite v = true -> num_sub v v = Fin 0.
Proof.
  destruct v as [q| | |]; simpl; try discriminate. intros _.
  f_equal. apply (Qred_complete (q - q) 0). ring.
Qed.

Lemma num_add_not_finite_l (u v : num) :
  is_finite u = false -> is_finite (num_add u v) = false.
Proof. destruct u, v; simpl; congruence. Qed.

Lemma fold_add_not_finite (l : ndarray) (acc : num) :
  is_finite acc = false -> is_finite (fold_left num_add l acc) = false.
Proof.
  revert acc. induction l as [|v l IH]; simpl; intros acc H; [assumption|].
  apply IH. now apply num_add_not_finite_l.
Qed.

Lemma num_square_finite (v : num) :
  is_finite (num_square v) = true -> exists q, v = Fin q.
Proof.
  destruct v as [q| | |]; simpl; try discriminate. intros _. now exists q.
Qed.

Lemma fold_squares_nonneg (l : ndarray) (a r : Q) :
  0 <= a -> fold_left num_add (np_square l) (Fin a) = Fin r -> 0 <= r.
Proof.
  revert a. induction l as [|v l IH]; simpl; intros a Ha H.
  - inversion H; subst. assumption.
  - destruct (is_finite (num_square v)) eqn:Fv.
    + destruct (num_square_finite v Fv) as [q ->]. simpl in H.
      apply IH in H; [assumption|].
      rewrite Qred_correct, Qred_correct.
      assert (0 <= q * q) by nra. lra.
    + assert (N : is_finite (fold_left num_add (np_square l)
                                 (num_add (Fin a) (num_square v))) = false).
      { apply fold_add_not_finite. destruct (num_square v); simpl in *; congruence. }
      simpl in N. rewrite H in N. discriminate.
Qed.

Lemma sum_squares_nonneg (l : ndarray) (r : Q) :
  np_sum (np_square l) = Fin r -> 0 <= r.
Proof. apply fold_squares_nonneg. lra. Qed.

Lemma Qeq_bool_false_neq (p q : Q) : Qeq_bool p q = false -> ~ p == q.
Proof.
  intros H E. apply Qeq_bool_iff in E. congruence.
Qed.

(* ================================================================= *)
(** ** Goodness of fit *)

Lemma one_minus_quotient (r t : Q) :
  0 <= r ->
  num_sub (Fin 1) (num_div (Fin r) (Fin t)) = r_squared_value r t.
Proof.
  intro Hr. unfold r_squared_value. simpl.
  destruct (Qeq_bool t 0); [|reflexivity].
  destruct (Qeq_bool r 0) eqn:E.
  - apply Qeq_bool_iff in E. apply Qeq_alt in E. now rewrite E.
  - apply Qeq_bool_false_neq in E.
    assert (L : 0 < r) by (apply Qle_lteq in Hr as [H|H]; [assumption | now symmetry in H]).
    apply Qgt_alt in L. now rewrite L.
Qed.

(** C2 (as amended).  Neither [calculate_r_squared] tests [SS_tot]: once the
    two spectra can be subtracted and both sums are finite, the result is
    [1 - SS_res / SS_tot] with the division carried out; for [SS_tot = 0]
    that is [-inf] when [SS_res > 0] and NaN when [SS_res = 0], and no
    exception is raised. *)
Theorem calculate_r_squared_unguarded
        (sample fitted diff : ndarray) (r t : Q) :
  np_sub sample fitted = Ok diff ->
  np_sum (np_square diff) = Fin r ->
  CurveFitting.sum_sq_total sample = Fin t ->
  CurveFitting.calculate_r_squared sample fitted = Ok (r_squared_value r t) /\
  BackgroundCorrection.calculate_r_squared sample fitted = Ok (r_squared_value r t).
Proof.
  intros Hd Hr Ht.
  pose proof (sum_squares_nonneg _ Hr) as Hr0.
  unfold CurveFitting.calculate_r_squared, BackgroundCorrection.calculate_r_squared.
  rewrite Hd. cbn [bind].
  change (BackgroundCorrection.sum_sq_total sample) with (CurveFitting.sum_sq_total sample).
  rewrite Hr, Ht.
  rewrite (one_minus_quotient t Hr0). split; reflexivity.
Qed.

Lemma calculate_r_squared_unguarded_witness :
  CurveFitting.calculate_r_squared [Fin 1; Fin 1] [Fin 0; Fin 0] = Ok NInf /\
  BackgroundCorrection.calculate_r_squared [Fin 1; Fin 1] [Fin 0; Fin 0] = Ok NInf.
Proof.
  exact (@calculate_r_squared_unguarded
           [Fin 1; Fin 1] [Fin 0; Fin 0] [Fin 1; Fin 1] 2 0
           eq_refl eq_refl eq_refl).
Defined.

(** C2 (counterexample).  A constant observed spectrum has [SS_tot = 0]; the
    functions return the float [-inf], the outcome of [1 - 2/0]: a value,
    not an error and not a marker of an undefined result. *)
Lemma calculate_r_squared_zero_variance :
  CurveFitting.sum_sq_total [Fin 1; Fin 1] = Fin 0 /\
  BackgroundCorrection.sum_sq_total [Fin 1; Fin 1] = Fin 0 /\
  CurveFitting.calculate_r_squared [Fin 1; Fin 1] [Fin 0; Fin 0] = Ok NInf /\
  BackgroundCorrection.calculate_r_squared [Fin 1; Fin 1] [Fin 0; Fin 0] = Ok NInf.
Proof. repeat split; reflexivity. Qed.

(* ================================================================= *)
(** ** The bounded fit *)

Lemma within_nonnegative_box (c : coeffs) :
  within_bounds nonnegative_box c = true <->
  num_leb (Fin 0) (fst c) = true /\ num_leb (Fin 0) (snd c) = true.
Proof.
  unfold within_bounds, nonnegative_box, in_range. simpl.
  rewrite !andb_true_r. apply andb_true_iff.
Qed.

Lemma feasible_start_respects_bounds : respects_bounds feasible_start.
Proof.
  intros f x0 b res. unfold feasible_start.
  destruct (within_bounds b x0) eqn:W; [|discriminate].
  destruct (f x0); simpl; [|discriminate].
  intro H. inversion H; subst. exact W.
Qed.

(** C1.  Both scripts hand the bounds [(0, None), (0, None)] to the
    optimizer and return its [x] untouched; with an optimizer that keeps its
    answer inside the bounds it is given, both returned coefficients are
    [>= 0], whatever the spectra hold (negative values, NaN, any length). *)
Theorem deconvolution_coefficients_nonnegative
        (minimize : minimizer) (sample styrene polystyrene : ndarray) (c1 c2 : num) :
  respects_bounds minimize ->
  (CurveFitting.least_squares_deconvolution minimize sample styrene polystyrene
     = Ok (c1, c2) ->
   num_leb (Fin 0) c1 = true /\ num_leb (Fin 0) c2 = true) /\
  (BackgroundCorrection.fit_spectra minimize sample styrene polystyrene
     = Ok (c1, c2) ->
   num_leb (Fin 0) c1 = true /\ num_leb (Fin 0) c2 = true).
Proof.
  intro RB. split.
  - unfold CurveFitting.least_squares_deconvolution.
    destruct (minimize _ _ _) as [res|e] eqn:M; simpl; [|discriminate].
    intro H. inversion H as [Hx].
    apply RB in M. fold nonnegative_box in M.
    apply within_nonnegative_box in M. now rewrite Hx in M.
  - unfold BackgroundCorrection.fit_spectra.
    destruct (minimize _ _ _) as [res|e] eqn:M; simpl; [|discriminate].
    intro H. inversion H as [Hx].
    apply RB in M. fold nonnegative_box in M.
    apply within_nonnegative_box in M. now rewrite Hx in M.
Qed.

Lemma deconvolution_coefficients_nonnegative_witness :
  CurveFitting.least_squares_deconvolution feasible_start
    [Fin (-1); Fin 2] [Fin 1; Fin 0] [Fin 0; Fin 1] = Ok (Fin 0.5, Fin 0.5) /\
  BackgroundCorrection.fit_spectra feasible_start
    [Fin (-1); Fin 2] [Fin 1; Fin 0] [Fin 0; Fin 1] = Ok (Fin 0.5, Fin 0.5) /\
  (num_leb (Fin 0) (Fin 0.5) = true /\ num_leb (Fin 0) (Fin 0.5) = true) /\
  (num_leb (Fin 0) (Fin 0.5) = true /\ num_leb (Fin 0) (Fin 0.5) = true).
Proof.
  split; [reflexivity|]. split; [reflexivity|].
  pose proof (@deconvolution_coefficients_nonnegative feasible_start
                [Fin (-1); Fin 2] [Fin 1; Fin 0] [Fin 0; Fin 1] (Fin 0.5) (Fin 0.5)
                feasible_start_respects_bounds) as [A B].
  split; [exact (A eq_refl) | exact (B eq_refl)].
Defined.

(** C9 (as amended).  The answer of the optimizer is returned as it is:
    [least_squares_deconvolution] and both [fit_spectra] give [res.x] for
    every [res] the optimizer returns, whether [res.success] holds or not,
    and nothing is logged. *)
Theorem nonconvergence_not_surfaced
        (minimize : minimizer) (sample styrene polystyrene : ndarray)
        (res : OptimizeResult) :
  minimize (CurveFitting.residuals sample styrene polystyrene) start nonnegative_box
    = Ok res ->
  CurveFitting.least_squares_deconvolution minimize sample styrene polystyrene
    = Ok (x res) /\
  CurveFitting.fit_spectra sample styrene polystyrene
    (CurveFitting.by_least_squares minimize) = (Some (x res), []) /\
  BackgroundCorrection.fit_spectra minimize sample styrene polystyrene
    = Ok (x res).
Proof.
  intro M.
  assert (L : CurveFitting.least_squares_deconvolution minimize sample styrene polystyrene
              = Ok (x res)).
  { unfold CurveFitting.least_squares_deconvolution.
    fold start. fold nonnegative_box. now rewrite M. }
  split; [exact L|]. split.
  - unfold CurveFitting.fit_spectra, CurveFitting.by_least_squares. now rewrite L.
  - unfold BackgroundCorrection.fit_spectra.
    change (BackgroundCorrection.residuals sample styrene polystyrene)
      with (CurveFitting.residuals sample styrene polystyrene).
    fold start. fold nonnegative_box. now rewrite M.
Qed.

Lemma nonconvergence_not_surfaced_witness :
  CurveFitting.least_squares_deconvolution stalled [Fin 1; Fin 2] [Fin 1; Fin 0] [Fin 0; Fin 1]
    = Ok (Fin 0.5, Fin 0.5) /\
  CurveFitting.fit_spectra [Fin 1; Fin 2] [Fin 1; Fin 0] [Fin 0; Fin 1]
    (CurveFitting.by_least_squares stalled) = (Some (Fin 0.5, Fin 0.5), []) /\
  BackgroundCorrection.fit_spectra stalled [Fin 1; Fin 2] [Fin 1; Fin 0] [Fin 0; Fin 1]
    = Ok (Fin 0.5, Fin 0.5).
Proof.
  exact (@nonconvergence_not_surfaced stalled
           [Fin 1; Fin 2] [Fin 1; Fin 0] [Fin 0; Fin 1]
           (mkResult (Fin 0.5, Fin 0.5) (Fin (5 # 2)) false 0) eq_refl).
Defined.

(** C9 (counterexample).  An optimizer run that stops at the starting point
    with [success = False]: the deconvolution hands back that point as an
    ordinary pair of coefficients; no exception, no [None], no log line. *)
Lemma failed_fit_returned_as_answer :
  (exists res,
     stalled (CurveFitting.residuals [Fin 1; Fin 2] [Fin 1; Fin 0] [Fin 0; Fin 1])
             start nonnegative_box = Ok res /\
     success res = false /\ x res = (Fin 0.5, Fin 0.5)) /\
  CurveFitting.least_squares_deconvolution stalled [Fin 1; Fin 2] [Fin 1; Fin 0] [Fin 0; Fin 1]
    = Ok (Fin 0.5, Fin 0.5) /\
  CurveFitting.fit_spectra [Fin 1; Fin 2] [Fin 1; Fin 0] [Fin 0; Fin 1]
    (CurveFitting.by_least_squares stalled) = (Some (Fin 0.5, Fin 0.5), []) /\
  BackgroundCorrection.fit_spectra stalled [Fin 1; Fin 2] [Fin 1; Fin 0] [Fin 0; Fin 1]
    = Ok (Fin 0.5, Fin 0.5).
Proof.
  split.
  - eexists. split; [reflexivity|]. split; reflexivity.
  - repeat split; reflexivity.
Qed.

(* ================================================================= *)
(** ** Rows, columns and the blank row *)

Lemma zip_with_map_same {A B C D : Type} (f : B -> C -> D) (g : A -> B) (h : A -> C)
      (l : list A) :
  zip_with f (map g l) (map h l) = map (fun a => f (g a) (h a)) l.
Proof. induction l as [|a l IH]; simpl; [reflexivity | now rewrite IH]. Qed.


Lemma map_result_inv {A B : Type} (f : A -> result B) (xs : list A) (ys : list B) :
  map_result f xs = Ok ys ->
  length ys = length xs /\
  forall i a, nth_error xs i = Some a ->
              exists b, nth_error ys i = Some b /\ f a = Ok b.
Proof.
  revert ys. induction xs as [|a xs IH]; simpl; intros ys H.
  - inversion H; subst. split; [reflexivity|].
    intros [|i] a' E; discriminate.
  - destruct (f a) as [b|e] eqn:Fa; simpl in H; [|discriminate].
    destruct (map_result f xs) as [bs|e] eqn:M; simpl in H; [|discriminate].
    inversion H; subst. destruct (IH bs eq_refl) as [L N]. split.
    + simpl. now rewrite L.
    + intros [|i] a' E; simpl in *.
      * inversion E; subst. now exists b.
      * now apply N.
Qed.

Lemma series_get_row (f : NumFrame) (k : nat) (l : label) :
  series_get (row_series f k) l = at_num f k l.
Proof.
  unfold series_get, row_series, at_num, cell.
  rewrite (lookup_map_snd (fun c => nth k c NaN)).
  now destruct (lookup l (columns f)).
Qed.

Lemma labels_row_series (f : NumFrame) (k : nat) :
  map fst (row_series f k) = labels f.
Proof.
  unfold row_series, labels. rewrite map_map. reflexivity.
Qed.

(** [df.subtract(df.iloc[b], axis=1)] is the table minus its row [b]. *)
Lemma subtract_own_row (f : NumFrame) (b : Z) (k : nat) :
  positional (index_len f) b = Ok k ->
  exists s, iloc_row f b = Ok s /\ subtract_series f s = minus_row f k.
Proof.
  intro P. exists (row_series f k). split.
  - unfold iloc_row. now rewrite P.
  - unfold subtract_series, minus_row.
    rewrite labels_row_series, union_labels_same. f_equal.
    apply map_ext. intro l. f_equal.
    apply map_ext. intro i. now rewrite series_get_row.
Qed.

Lemma positional_zero (n : nat) : (0 < n)%nat -> positional n 0 = Ok O.
Proof.
  intro H. unfold positional.
  assert (E : ((0 <=? 0) && (0 <? Z.of_nat n))%Z = true).
  { apply andb_true_iff. split; [reflexivity | apply Z.ltb_lt; lia]. }
  now rewrite E.
Qed.

Lemma positional_bound (n : nat) (b : Z) (k : nat) :
  positional n b = Ok k -> (k < n)%nat.
Proof.
  unfold positional.
  destruct ((0 <=? b) && (b <? Z.of_nat n))%Z eqn:E1.
  - intro H. inversion H; subst.
    apply andb_true_iff in E1 as [A B].
    apply Z.leb_le in A. apply Z.ltb_lt in B. lia.
  - destruct ((- Z.of_nat n <=? b) && (b <? 0))%Z eqn:E2; [|discriminate].
    intro H. inversion H; subst.
    apply andb_true_iff in E2 as [A B].
    apply Z.leb_le in A. apply Z.ltb_lt in B. lia.
Qed.

Lemma positional_empty (b : Z) : positional 0 b = Raise IndexError.
Proof.
  unfold positional.
  destruct ((0 <=? b) && (b <? Z.of_nat 0))%Z eqn:E1.
  - apply andb_true_iff in E1 as [A B].
    apply Z.leb_le in A. apply Z.ltb_lt in B. simpl in B. lia.
  - destruct ((- Z.of_nat 0 <=? b) && (b <? 0))%Z eqn:E2; [|reflexivity].
    apply andb_true_iff in E2 as [A B].
    apply Z.leb_le in A. apply Z.ltb_lt in B. simpl in A. lia.
Qed.

Lemma map_result_map_total {A B C : Type} (f : B -> result C) (h : A -> B)
      (g : A -> C) (xs : list A) :
  (forall a, In a xs -> f (h a) = Ok (g a)) ->
  map_result f (map h xs) = Ok (map g xs).
Proof.
  induction xs as [|a xs IH]; simpl; intro H; [reflexivity|].
  rewrite (H a) by now left. simpl.
  rewrite IH by (intros; apply H; now right). reflexivity.
Qed.

Lemma series_get_row_minus_row (f : NumFrame) (k i : nat) (l : label) :
  In l (labels f) ->
  series_get (row_minus_row f k i) l = num_sub (at_num f i l) (at_num f k l).
Proof.
  intro Hl. unfold series_get, row_minus_row, at_num, cell.
  rewrite (lookup_map_snd (fun c => num_sub (nth i c NaN) (nth k c NaN))).
  destruct (lookup l (columns f)) eqn:E; [reflexivity|].
  apply lookup_none in E. contradiction.
Qed.

(** [subtract_blank_row] of the older script is the table minus its row 0. *)
Lemma subtract_blank_row_spec (f : NumFrame) :
  (0 < index_len f)%nat ->
  BackgroundCorrection.subtract_blank_row f = Ok (minus_row f 0).
Proof.
  intro Hn. unfold BackgroundCorrection.subtract_blank_row.
  rewrite (positional_zero Hn). cbn [bind].
  unfold apply_axis1.
  rewrite (map_result_map_total _ _ (row_minus_row f 0)).
  2:{ intros i _. unfold series_sub_array, row_series, row_values, row_minus_row.
      rewrite !length_map, Nat.eqb_refl. f_equal.
      now rewrite zip_with_map_same. }
  cbn [bind]. f_equal. unfold frame_of_rows, minus_row.
  rewrite length_map, length_seq. f_equal.
  destruct (index_len f) as [|n] eqn:En; [lia|].
  cbn [seq map].
  replace (map fst (row_minus_row f 0 0)) with (labels f)
    by (unfold row_minus_row, labels; now rewrite map_map).
  apply map_ext_in. intros l Hl. f_equal.
  rewrite (@series_get_row_minus_row f O O l Hl). f_equal.
  rewrite map_map. apply map_ext. intro i.
  apply (@series_get_row_minus_row f O i l Hl).
Qed.

(* ================================================================= *)
(** ** Selecting, subtracting and recombining columns *)

Lemma labels_frame_sub (fill : option num) (l r : NumFrame) :
  labels (frame_sub fill l r) = union_labels (labels l) (labels r).
Proof.
  unfold frame_sub, labels at 1. simpl. rewrite map_map. simpl. apply map_id.
Qed.

Lemma index_len_frame_sub (fill : option num) (l r : NumFrame) :
  index_len (frame_sub fill l r) = Nat.max (index_len l) (index_len r).
Proof. reflexivity. Qed.

Lemma at_num_frame_sub (fill : option num) (l r : NumFrame) (i : nat) (lab : label) :
  (i < Nat.max (index_len l) (index_len r))%nat ->
  In lab (union_labels (labels l) (labels r)) ->
  at_num (frame_sub fill l r) i lab =
  sub_cells fill (at_num l i lab) (at_num r i lab).
Proof.
  intros Hi Hl. unfold at_num at 1. unfold frame_sub. cbn [columns].
  rewrite (lookup_keyed
             (fun k => map (fun j => sub_cells fill
                                       (cell (lookup k (columns l)) j)
                                       (cell (lookup k (columns r)) j))
                           (seq 0 (Nat.max (index_len l) (index_len r)))) _ _ Hl).
  cbn [cell]. now rewrite nth_map_seq.
Qed.

Lemma lookup_select_number (df : DataFrame) (l : label) :
  NoDup (labels df) ->
  lookup l (columns (select_number df)) =
  match lookup l (columns df) with
  | Some (NumCol xs) => Some xs
  | _ => None
  end.
Proof.
  unfold select_number, labels. cbn [columns].
  induction (columns df) as [|[k c] cols IH]; simpl; intro ND; [reflexivity|].
  inversion ND as [|? ? Hk ND']; subst.
  destruct (label_eqb l k) eqn:E.
  - apply label_eqb_eq in E. subst.
    destruct c as [xs|xs]; simpl.
    + now rewrite label_eqb_refl.
    + rewrite (IH ND').
      assert (N : lookup k cols = None) by now apply lookup_none.
      now rewrite N.
  - destruct c as [xs|xs]; simpl; [rewrite E|]; apply (IH ND').
Qed.

Lemma lookup_select_non_number (df : DataFrame) (l : label) :
  NoDup (labels df) ->
  lookup l (columns (select_non_number df)) =
  match lookup l (columns df) with
  | Some (ObjCol xs) => Some xs
  | _ => None
  end.
Proof.
  unfold select_non_number, labels. cbn [columns].
  induction (columns df) as [|[k c] cols IH]; simpl; intro ND; [reflexivity|].
  inversion ND as [|? ? Hk ND']; subst.
  destruct (label_eqb l k) eqn:E.
  - apply label_eqb_eq in E. subst.
    destruct c as [xs|xs]; simpl.
    + rewrite (IH ND').
      assert (N : lookup k cols = None) by now apply lookup_none.
      now rewrite N.
    + now rewrite label_eqb_refl.
  - destruct c as [xs|xs]; simpl; [|rewrite E]; apply (IH ND').
Qed.

Lemma in_numeric_labels (df : DataFrame) (l : label) :
  In l (numeric_labels df) <-> exists xs, In (l, NumCol xs) (columns df).
Proof.
  unfold numeric_labels, labels, select_number. cbn [columns].
  induction (columns df) as [|[k c] cols IH]; simpl.
  - split; [contradiction | intros [? []]].
  - rewrite map_app, in_app_iff, IH. split.
    + intros [H|[xs H]].
      * destruct c as [xs|xs]; simpl in H; [|contradiction].
        destruct H as [<-|[]]. exists xs. now left.
      * exists xs. now right.
    + intros [xs [H|H]].
      * inversion H; subst. left. simpl. now left.
      * right. now exists xs.
Qed.

Lemma in_object_labels (df : DataFrame) (l : label) :
  In l (labels (select_non_number df)) <-> exists xs, In (l, ObjCol xs) (columns df).
Proof.
  unfold labels, select_non_number. cbn [columns].
  induction (columns df) as [|[k c] cols IH]; simpl.
  - split; [contradiction | intros [? []]].
  - rewrite map_app, in_app_iff, IH. split.
    + intros [H|[xs H]].
      * destruct c as [xs|xs]; simpl in H; [contradiction|].
        destruct H as [<-|[]]. exists xs. now left.
      * exists xs. now right.
    + intros [xs [H|H]].
      * inversion H; subst. left. simpl. now left.
      * right. now exists xs.
Qed.

Lemma in_labels_column {C : Type} (l : label) (cols : list (label * C)) :
  In l (map fst cols) <-> exists c, In (l, c) cols.
Proof.
  rewrite in_map_iff. split.
  - intros [[k c] [E H]]. simpl in E. subst. now exists c.
  - intros [c H]. now exists (l, c).
Qed.

Lemma numeric_labels_incl (df : DataFrame) (l : label) :
  In l (numeric_labels df) -> In l (labels df).
Proof.
  intro H. apply in_numeric_labels in H as [xs H].
  apply in_labels_column. now exists (NumCol xs).
Qed.

Lemma object_labels_incl (df : DataFrame) (l : label) :
  In l (labels (select_non_number df)) -> In l (labels df).
Proof.
  intro H. apply in_object_labels in H as [xs H].
  apply in_labels_column. now exists (ObjCol xs).
Qed.

Lemma numeric_labels_NoDup (df : DataFrame) :
  NoDup (labels df) -> NoDup (numeric_labels df).
Proof.
  destruct df as [n cols]. unfold numeric_labels, labels, select_number. cbn [columns].
  induction cols as [|[k c] cols IH]; simpl; intro ND; [constructor|].
  inversion ND as [|? ? Hk ND']; subst. specialize (IH ND').
  destruct c as [xs|xs]; simpl; [|assumption].
  constructor; [|assumption].
  intro H. apply Hk. apply (@numeric_labels_incl (mkFrame n cols)). exact H.
Qed.

Lemma object_labels_NoDup (df : DataFrame) :
  NoDup (labels df) -> NoDup (labels (select_non_number df)).
Proof.
  destruct df as [n cols]. unfold labels, select_non_number. cbn [columns].
  induction cols as [|[k c] cols IH]; simpl; intro ND; [constructor|].
  inversion ND as [|? ? Hk ND']; subst. specialize (IH ND').
  destruct c as [xs|xs]; simpl; [assumption|].
  constructor; [|assumption].
  intro H. apply Hk. apply (@object_labels_incl (mkFrame n cols)). exact H.
Qed.

(** Object labels first, numeric labels second: the order [concat] leaves;
    it holds the labels of the table, each once. *)
Lemma split_labels_NoDup (df : DataFrame) :
  NoDup (labels df) ->
  NoDup (labels (select_non_number df) ++ numeric_labels df).
Proof.
  intro ND. apply NoDup_app.
  - now apply object_labels_NoDup.
  - now apply numeric_labels_NoDup.
  - intros l Ho Hn.
    apply in_object_labels in Ho as [xs Ho].
    apply in_numeric_labels in Hn as [ys Hn].
    apply (lookup_In l (ObjCol xs) (columns df) ND) in Ho.
    apply (lookup_In l (NumCol ys) (columns df) ND) in Hn.
    congruence.
Qed.

Lemma pad_exact {A : Type} (n : nat) (d : A) (xs : list A) :
  length xs = n -> pad n d xs = xs.
Proof.
  intro H. unfold pad. rewrite H, Nat.sub_diag. apply app_nil_r.
Qed.

Lemma labels_concat_columns (a : ObjFrame) (b : NumFrame) :
  labels (concat_columns a b) = labels a ++ labels b.
Proof.
  unfold concat_columns, labels. cbn [columns].
  now rewrite map_app, !map_map.
Qed.

Lemma lookup_concat_columns (a : ObjFrame) (b : NumFrame) (l : label) :
  lookup l (columns (concat_columns a b)) =
  match lookup l (columns a) with
  | Some xs => Some (ObjCol (pad (Nat.max (index_len a) (index_len b)) OMissing xs))
  | None => option_map (fun xs => NumCol (pad (Nat.max (index_len a) (index_len b)) NaN xs))
                       (lookup l (columns b))
  end.
Proof.
  unfold concat_columns. cbn [columns]. rewrite lookup_app.
  rewrite (lookup_map_snd
             (fun xs => ObjCol (pad (Nat.max (index_len a) (index_len b)) OMissing xs))).
  rewrite (lookup_map_snd
             (fun xs => NumCol (pad (Nat.max (index_len a) (index_len b)) NaN xs))).
  now destruct (lookup l (columns a)).
Qed.

Lemma labels_keyed {C : Type} (F : label -> C) (ls : list label) :
  map fst (map (fun k => (k, F k)) ls) = ls.
Proof. rewrite map_map. apply map_id. Qed.

Lemma reindex_columns_spec (df : DataFrame) (cols : list label) :
  NoDup (labels df) ->
  (forall l, In l cols -> In l (labels df)) ->
  exists out,
    reindex_columns df cols = Ok out /\
    labels out = cols /\
    index_len out = index_len df /\
    forall l, In l cols -> lookup l (columns out) = lookup l (columns df).
Proof.
  intros ND Sub. unfold reindex_columns.
  destruct (labels_eqb (labels df) cols) eqn:E.
  - apply labels_eqb_eq in E. exists df. repeat split; auto.
  - apply unique_NoDup in ND. rewrite ND.
    eexists. split; [reflexivity|]. cbn [columns index_len]. repeat split.
    + unfold labels. cbn [columns]. apply labels_keyed.
    + intros l Hl.
      rewrite (lookup_keyed
                 (fun k => match lookup k (columns df) with
                           | Some c => c
                           | None => NumCol (repeat NaN (index_len df))
                           end) _ _ Hl).
      destruct (lookup l (columns df)) eqn:L; [reflexivity|].
      apply lookup_none in L. exfalso. apply L, Sub, Hl.
Qed.

Lemma labels_minus_row (f : NumFrame) (k : nat) : labels (minus_row f k) = labels f.
Proof. unfold minus_row, labels at 1. cbn [columns]. apply labels_keyed. Qed.

(** The numeric part after both subtractions, for aligned tables. *)
Lemma lookup_minus_row_frame_sub (fill : option num) (raw plate : DataFrame) (k : nat) (l : label) :
  index_len plate = index_len raw ->
  numeric_labels plate = numeric_labels raw ->
  (k < index_len raw)%nat ->
  In l (numeric_labels raw) ->
  lookup l (columns (minus_row (frame_sub fill (select_number raw) (select_number plate)) k))
  = Some (blank_corrected_column fill raw plate k l).
Proof.
  intros Hn Hl Hk Hin.
  assert (U : union_labels (labels (select_number raw)) (labels (select_number plate))
              = numeric_labels raw).
  { unfold numeric_labels in *. rewrite Hl. apply union_labels_same. }
  assert (M : Nat.max (index_len (select_number raw)) (index_len (select_number plate))
              = index_len raw).
  { cbn [select_number index_len]. rewrite Hn. apply Nat.max_id. }
  unfold minus_row.
  rewrite labels_frame_sub, U, index_len_frame_sub, M. cbn [columns].
  rewrite (lookup_keyed
             (fun k0 => map (fun i => num_sub
                               (at_num (frame_sub fill (select_number raw) (select_number plate)) i k0)
                               (at_num (frame_sub fill (select_number raw) (select_number plate)) k k0))
                            (seq 0 (index_len raw))) _ _ Hin).
  f_equal. unfold blank_corrected_column. apply map_ext_in. intros i Hi.
  apply in_seq in Hi. unfold corrected_cell.
  rewrite !at_num_frame_sub; try (rewrite M; lia); try (rewrite U; assumption).
  reflexivity.
Qed.

Lemma length_blank_corrected (fill : option num) (raw plate : DataFrame) (k : nat) (l : label) :
  length (blank_corrected_column fill raw plate k l) = index_len raw.
Proof. unfold blank_corrected_column. now rewrite length_map, length_seq. Qed.

(** What the newer [separate_subtract_and_recombine] returns on aligned
    tables: the columns of the raw table in their order, the object columns
    as they were, every numeric column corrected. *)
Lemma curve_fitting_correction_spec (raw plate : DataFrame) (b : Z) (k : nat) :
  well_formed raw ->
  index_len plate = index_len raw ->
  numeric_labels plate = numeric_labels raw ->
  positional (index_len raw) b = Ok k ->
  exists out,
    CurveFitting.separate_subtract_and_recombine raw plate b = Ok out /\
    labels out = labels raw /\
    index_len out = index_len raw /\
    (forall l xs, In (l, ObjCol xs) (columns raw) ->
                  lookup l (columns out) = Some (ObjCol xs)) /\
    (forall l, In l (numeric_labels raw) ->
               lookup l (columns out) = Some (NumCol (blank_corrected_column None raw plate k l))).
Proof.
  intros [ND Len] Hn Hl P.
  pose proof (positional_bound _ _ P) as Hk.
  set (pc := frame_sub None (select_number raw) (select_number plate)).
  assert (M : index_len pc = index_len raw).
  { unfold pc. rewrite index_len_frame_sub. cbn [select_number index_len].
    rewrite Hn. apply Nat.max_id. }
  assert (Lpc : labels pc = numeric_labels raw).
  { unfold pc. rewrite labels_frame_sub. unfold numeric_labels in *.
    rewrite Hl. apply union_labels_same. }
  destruct (@subtract_own_row pc b k) as [s [Hs Hsub]]; [now rewrite M|].
  unfold CurveFitting.separate_subtract_and_recombine, CurveFitting.separate_columns.
  fold pc. rewrite Hs. cbn [bind]. rewrite Hsub.
  unfold CurveFitting.recombine_data.
  set (combined := concat_columns (select_non_number raw) (minus_row pc k)).
  assert (Lc : labels combined = labels (select_non_number raw) ++ numeric_labels raw).
  { unfold combined. now rewrite labels_concat_columns, labels_minus_row, Lpc. }
  assert (Mc : Nat.max (index_len (select_non_number raw)) (index_len (minus_row pc k))
               = index_len raw).
  { cbn [select_non_number minus_row index_len]. rewrite M. apply Nat.max_id. }
  destruct (@reindex_columns_spec combined (labels raw)) as [out [R [Lo [Io Look]]]].
  - rewrite Lc. now apply split_labels_NoDup.
  - intros l Hin. rewrite Lc. apply in_app_iff.
    apply in_labels_column in Hin as [[xs|xs] Hin].
    + right. apply in_numeric_labels. now exists xs.
    + left. apply in_object_labels. now exists xs.
  - exists out. split; [exact R|]. split; [exact Lo|]. split.
    { rewrite Io. unfold combined. cbn [concat_columns index_len]. exact Mc. }
    split.
    + intros l xs Hin.
      rewrite Look by (apply in_labels_column; now exists (ObjCol xs)).
      unfold combined. rewrite lookup_concat_columns, Mc.
      rewrite lookup_select_non_number by assumption.
      apply (lookup_In l (ObjCol xs) (columns raw) ND) in Hin as Lk. rewrite Lk.
      f_equal. f_equal. apply pad_exact.
      rewrite Forall_forall in Len. apply (Len (l, ObjCol xs) Hin).
    + intros l Hin.
      rewrite Look by now apply numeric_labels_incl.
      unfold combined. rewrite lookup_concat_columns, Mc.
      rewrite lookup_select_non_number by assumption.
      apply in_numeric_labels in Hin as Hxs. destruct Hxs as [xs Hxs].
      apply (lookup_In l (NumCol xs) (columns raw) ND) in Hxs. rewrite Hxs.
      unfold pc. rewrite (@lookup_minus_row_frame_sub None raw plate k l Hn Hl Hk Hin).
      cbn [option_map]. f_equal. f_equal. apply pad_exact.
      apply length_blank_corrected.
Qed.

(** What the older [separate_subtract_and_recombine] returns on aligned
    tables: the object columns first, the corrected numeric columns after
    them. *)
Lemma background_correction_spec (raw plate : DataFrame) :
  well_formed raw ->
  index_len plate = index_len raw ->
  numeric_labels plate = numeric_labels raw ->
  (0 < index_len raw)%nat ->
  exists out,
    BackgroundCorrection.separate_subtract_and_recombine raw plate = Ok out /\
    labels out = labels (select_non_number raw) ++ numeric_labels raw /\
    index_len out = index_len raw /\
    (forall l xs, In (l, ObjCol xs) (columns raw) ->
                  lookup l (columns out) = Some (ObjCol xs)) /\
    (forall l, In l (numeric_labels raw) ->
               lookup l (columns out)
               = Some (NumCol (blank_corrected_column (Some (Fin 0)) raw plate 0 l))).
Proof.
  intros [ND Len] Hn Hl Hpos.
  set (pc := frame_sub (Some (Fin 0)) (select_number raw) (select_number plate)).
  assert (M : index_len pc = index_len raw).
  { unfold pc. rewrite index_len_frame_sub. cbn [select_number index_len].
    rewrite Hn. apply Nat.max_id. }
  assert (Lpc : labels pc = numeric_labels raw).
  { unfold pc. rewrite labels_frame_sub. unfold numeric_labels in *.
    rewrite Hl. apply union_labels_same. }
  unfold BackgroundCorrection.separate_subtract_and_recombine,
    BackgroundCorrection.separate_columns, BackgroundCorrection.subtract_background.
  fold pc. rewrite (@subtract_blank_row_spec pc) by now rewrite M.
  cbn [bind]. unfold BackgroundCorrection.recombine_data.
  assert (Mc : Nat.max (index_len (select_non_number raw)) (index_len (minus_row pc 0))
               = index_len raw).
  { cbn [select_non_number minus_row index_len]. rewrite M. apply Nat.max_id. }
  eexists. split; [reflexivity|]. split.
  { now rewrite labels_concat_columns, labels_minus_row, Lpc. }
  split; [exact Mc|]. split.
  - intros l xs Hin.
    rewrite lookup_concat_columns, Mc.
    rewrite lookup_select_non_number by assumption.
    apply (lookup_In l (ObjCol xs) (columns raw) ND) in Hin as Lk. rewrite Lk.
    f_equal. f_equal. apply pad_exact.
    rewrite Forall_forall in Len. apply (Len (l, ObjCol xs) Hin).
  - intros l Hin.
    rewrite lookup_concat_columns, Mc.
    rewrite lookup_select_non_number by assumption.
    apply in_numeric_labels in Hin as Hxs. destruct Hxs as [xs Hxs].
    apply (lookup_In l (NumCol xs) (columns raw) ND) in Hxs. rewrite Hxs.
    unfold pc.
    rewrite (@lookup_minus_row_frame_sub (Some (Fin 0)) raw plate O l Hn Hl Hpos Hin).
    cbn [option_map]. f_equal. f_equal. apply pad_exact.
    apply length_blank_corrected.
Qed.

(** A numeric column of the output is the corrected column of a numeric
    label of the raw table. *)
Lemma numeric_columns_of_output
      (fill : option num) (raw plate out : DataFrame) (k : nat) :
  NoDup (labels raw) ->
  NoDup (labels out) ->
  (forall l, In l (labels out) -> In l (labels raw)) ->
  (forall l xs, In (l, ObjCol xs) (columns raw) ->
                lookup l (columns out) = Some (ObjCol xs)) ->
  (forall l, In l (numeric_labels raw) ->
             lookup l (columns out) = Some (NumCol (blank_corrected_column fill raw plate k l))) ->
  forall l xs, In (l, NumCol xs) (columns out) ->
               In l (numeric_labels raw) /\ xs = blank_corrected_column fill raw plate k l.
Proof.
  intros NDr NDo Sub Hobj Hnum l xs Hin.
  pose proof Hin as Lk. apply (lookup_In l (NumCol xs) (columns out) NDo) in Lk.
  assert (Hl : In l (labels raw)).
  { apply Sub. apply in_labels_column. now exists (NumCol xs). }
  apply in_labels_column in Hl as [[ys|ys] Hr].
  - assert (N : In l (numeric_labels raw)) by (apply in_numeric_labels; now exists ys).
    split; [exact N|]. rewrite (Hnum l N) in Lk. now inversion Lk.
  - rewrite (Hobj l ys Hr) in Lk. discriminate.
Qed.

Lemma at_num_select_number (df : DataFrame) (l : label) (xs : list num) (i : nat) :
  NoDup (labels df) ->
  In (l, NumCol xs) (columns df) ->
  at_num (select_number df) i l = nth i xs NaN.
Proof.
  intros ND Hin. unfold at_num.
  rewrite lookup_select_number by assumption.
  apply (lookup_In l (NumCol xs) (columns df) ND) in Hin. now rewrite Hin.
Qed.

Lemma finite_cell (df : DataFrame) (l : label) (i : nat) :
  well_formed df -> all_finite df ->
  In l (numeric_labels df) -> (i < index_len df)%nat ->
  is_finite (at_num (select_number df) i l) = true.
Proof.
  intros [ND Len] HF Hl Hi.
  apply in_numeric_labels in Hl as [xs Hin].
  rewrite (@at_num_select_number df l xs i ND Hin).
  pose proof (HF l xs Hin) as F. rewrite Forall_forall in F, Len.
  apply F. apply nth_In. specialize (Len (l, NumCol xs) Hin). simpl in Len. lia.
Qed.

Lemma sub_cells_diag (fill : option num) (v : num) :
  is_finite v = true -> sub_cells fill v v = Fin 0.
Proof.
  intro F. destruct fill as [f|]; simpl.
  - destruct v; try discriminate. simpl. now apply (@num_sub_diag (Fin q)).
  - now apply num_sub_diag.
Qed.

Lemma blank_corrected_self (fill : option num) (raw : DataFrame) (k : nat) (l : label) :
  well_formed raw -> all_finite raw ->
  In l (numeric_labels raw) -> (k < index_len raw)%nat ->
  Forall (fun c => c = Fin 0) (blank_corrected_column fill raw raw k l).
Proof.
  intros WF HF Hl Hk. unfold blank_corrected_column.
  apply Forall_forall. intros c Hc.
  apply in_map_iff in Hc as [i [<- Hi]]. apply in_seq in Hi.
  unfold corrected_cell.
  rewrite !sub_cells_diag by (apply finite_cell; auto; lia).
  reflexivity.
Qed.

Lemma numeric_labels_kept (fill : option num) (raw plate out : DataFrame) (k : nat) :
  (forall l, In l (numeric_labels raw) ->
             lookup l (columns out) = Some (NumCol (blank_corrected_column fill raw plate k l))) ->
  forall l, In l (numeric_labels raw) -> In l (numeric_labels out).
Proof.
  intros Hnum l Hl. apply in_numeric_labels.
  exists (blank_corrected_column fill raw plate k l).
  apply lookup_some_In. now apply Hnum.
Qed.

(** C3 (as amended).  For a table that has a row at the blank index and
    whose numeric cells are all finite numbers, background correction with
    the table itself as the plate background succeeds, keeps every numeric
    column, and every numeric cell of the result is 0, in both scripts. *)
Theorem self_correction_all_zero (raw : DataFrame) (blank_index : Z) (k : nat) :
  well_formed raw ->
  all_finite raw ->
  positional (index_len raw) blank_index = Ok k ->
  (exists out,
     CurveFitting.separate_subtract_and_recombine raw raw blank_index = Ok out /\
     (forall l, In l (numeric_labels raw) -> In l (numeric_labels out)) /\
     numeric_cells_all (Fin 0) out) /\
  (exists out,
     BackgroundCorrection.separate_subtract_and_recombine raw raw = Ok out /\
     (forall l, In l (numeric_labels raw) -> In l (numeric_labels out)) /\
     numeric_cells_all (Fin 0) out).
Proof.
  intros WF HF P. pose proof WF as [ND Len].
  pose proof (positional_bound _ _ P) as Hk.
  split.
  - destruct (@curve_fitting_correction_spec raw raw blank_index k WF eq_refl eq_refl P)
      as [out [R [Lo [Io [Hobj Hnum]]]]].
    exists out. split; [exact R|].
    split; [exact (numeric_labels_kept _ _ _ _ _ Hnum)|].
    assert (NDo : NoDup (labels out)) by now rewrite Lo.
    intros l xs Hin.
    destruct (@numeric_columns_of_output None raw raw out k ND NDo
                ltac:(now rewrite Lo) Hobj Hnum l xs Hin) as [N ->].
    now apply blank_corrected_self.
  - assert (Hpos : (0 < index_len raw)%nat) by lia.
    destruct (@background_correction_spec raw raw WF eq_refl eq_refl Hpos)
      as [out [R [Lo [Io [Hobj Hnum]]]]].
    exists out. split; [exact R|].
    split; [exact (numeric_labels_kept _ _ _ _ _ Hnum)|].
    assert (NDo : NoDup (labels out)) by (rewrite Lo; now apply split_labels_NoDup).
    intros l xs Hin.
    destruct (@numeric_columns_of_output (Some (Fin 0)) raw raw out O ND NDo
                ltac:(intros l' H'; rewrite Lo in H'; apply in_app_iff in H' as [H'|H'];
                      [now apply object_labels_incl | now apply numeric_labels_incl])
                Hobj Hnum l xs Hin) as [N ->].
    now apply blank_corrected_self.
Qed.

Lemma two_wells_well_formed : well_formed two_wells.
Proof.
  split.
  - apply unique_NoDup. reflexivity.
  - repeat constructor.
Qed.

Lemma two_wells_all_finite : all_finite two_wells.
Proof.
  intros l xs H. simpl in H.
  destruct H as [H|[H|[H|[]]]]; inversion H; subst; repeat constructor.
Qed.

Lemma self_correction_all_zero_witness :
  (exists out,
     CurveFitting.separate_subtract_and_recombine two_wells two_wells 1 = Ok out /\
     (forall l, In l (numeric_labels two_wells) -> In l (numeric_labels out)) /\
     numeric_cells_all (Fin 0) out) /\
  (exists out,
     BackgroundCorrection.separate_subtract_and_recombine two_wells two_wells = Ok out /\
     (forall l, In l (numeric_labels two_wells) -> In l (numeric_labels out)) /\
     numeric_cells_all (Fin 0) out).
Proof.
  exact (@self_correction_all_zero two_wells 1 1
           two_wells_well_formed two_wells_all_finite eq_refl).
Defined.

(** C3 (counterexample).  A well-formed one-row table with a missing
    reading, corrected with itself as the background: the cell is NaN in the
    result of both scripts, not 0. *)
Lemma self_correction_keeps_missing_cell :
  well_formed missing_reading /\
  CurveFitting.separate_subtract_and_recombine missing_reading missing_reading 0
    = Ok missing_reading /\
  BackgroundCorrection.separate_subtract_and_recombine missing_reading missing_reading
    = Ok missing_reading /\
  ~ numeric_cells_all (Fin 0) missing_reading.
Proof.
  split.
  { split; [apply unique_NoDup; reflexivity | repeat constructor]. }
  split; [reflexivity|]. split; [reflexivity|].
  intro H. specialize (H (LInt 220) [NaN]).
  assert (I : In (LInt 220, NumCol [NaN]) (columns missing_reading))
    by (simpl; right; now left).
  apply H in I. inversion I as [|? ? E]. discriminate.
Qed.

(** The empty table that the newer [load_data_new] returns for an unreadable
    file has no blank row: the correction raises IndexError. *)
Lemma correction_of_empty_table_raises (b : Z) :
  CurveFitting.separate_subtract_and_recombine empty_frame empty_frame b
    = Raise IndexError /\
  BackgroundCorrection.separate_subtract_and_recombine empty_frame empty_frame
    = Raise IndexError.
Proof.
  split.
  - unfold CurveFitting.separate_subtract_and_recombine, iloc_row. simpl.
    now rewrite positional_empty.
  - reflexivity.
Qed.

Lemma nth_error_map_seq {A : Type} (f : nat -> A) (n i : nat) :
  (i < n)%nat -> nth_error (map f (seq 0 n)) i = Some (f i).
Proof.
  intro H. rewrite nth_error_map, nth_error_seq.
  apply Nat.ltb_lt in H. now rewrite H.
Qed.

(** C4 (as amended).  For a raw table and a background with the same
    numeric labels and row count, and a blank index that is a position of
    the table: the newer script returns a table whose numeric cell [(i, l)]
    is [(raw - background)[i][l]] minus [(raw - background)[blank][l]], and
    whose blank row is 0 at every label where that corrected value is a
    finite number; [subtract_blank_row] of the older script takes row 0 off
    every row in the same way. *)
Theorem background_correction_cells
        (raw plate : DataFrame) (blank_index : Z) (k : nat) (f : NumFrame) :
  well_formed raw ->
  index_len plate = index_len raw ->
  numeric_labels plate = numeric_labels raw ->
  positional (index_len raw) blank_index = Ok k ->
  (0 < index_len f)%nat ->
  (exists out,
     CurveFitting.separate_subtract_and_recombine raw plate blank_index = Ok out /\
     (forall i l, (i < index_len raw)%nat -> In l (numeric_labels raw) ->
        df_at out i l
        = Some (VNum (num_sub (corrected_cell None raw plate i l)
                              (corrected_cell None raw plate k l)))) /\
     (forall l, In l (numeric_labels raw) ->
        is_finite (corrected_cell None raw plate k l) = true ->
        df_at out k l = Some (VNum (Fin 0)))) /\
  (exists out,
     BackgroundCorrection.subtract_blank_row f = Ok out /\
     (forall i l, (i < index_len f)%nat -> In l (labels f) ->
        at_num out i l = num_sub (at_num f i l) (at_num f 0 l)) /\
     (forall l, In l (labels f) -> is_finite (at_num f 0 l) = true ->
        at_num out 0 l = Fin 0)).
Proof.
  intros WF Hn Hl P Hf.
  pose proof (positional_bound _ _ P) as Hk.
  assert (Cell : forall out,
             (forall l, In l (numeric_labels raw) ->
                lookup l (columns out) = Some (NumCol (blank_corrected_column None raw plate k l))) ->
             forall i l, (i < index_len raw)%nat -> In l (numeric_labels raw) ->
               df_at out i l
               = Some (VNum (num_sub (corrected_cell None raw plate i l)
                                     (corrected_cell None raw plate k l)))).
  { intros out Hnum i l Hi Hin. unfold df_at. rewrite (Hnum l Hin).
    unfold blank_corrected_column. now rewrite nth_error_map_seq. }
  assert (Cellf : forall i l, (i < index_len f)%nat -> In l (labels f) ->
             at_num (minus_row f 0) i l = num_sub (at_num f i l) (at_num f 0 l)).
  { intros i l Hi Hin. unfold at_num at 1, minus_row. cbn [columns].
    rewrite (lookup_keyed
               (fun l0 => map (fun j => num_sub (at_num f j l0) (at_num f 0 l0))
                              (seq 0 (index_len f))) _ _ Hin).
    cbn [cell]. now rewrite nth_map_seq. }
  split.
  - destruct (@curve_fitting_correction_spec raw plate blank_index k WF Hn Hl P)
      as [out [R [Lo [Io [Hobj Hnum]]]]].
    exists out. split; [exact R|]. split; [exact (Cell out Hnum)|].
    intros l Hin HF. rewrite (Cell out Hnum k l Hk Hin).
    now rewrite num_sub_diag.
  - exists (minus_row f 0). split; [now apply subtract_blank_row_spec|].
    split; [exact Cellf|].
    intros l Hin HF. rewrite (Cellf O l Hf Hin). now apply num_sub_diag.
Qed.

Lemma background_correction_cells_witness :
  (exists out,
     CurveFitting.separate_subtract_and_recombine two_wells two_wells_plate 0 = Ok out /\
     (forall i l, (i < index_len two_wells)%nat -> In l (numeric_labels two_wells) ->
        df_at out i l
        = Some (VNum (num_sub (corrected_cell None two_wells two_wells_plate i l)
                              (corrected_cell None two_wells two_wells_plate 0 l)))) /\
     (forall l, In l (numeric_labels two_wells) ->
        is_finite (corrected_cell None two_wells two_wells_plate 0 l) = true ->
        df_at out 0 l = Some (VNum (Fin 0)))) /\
  (exists out,
     BackgroundCorrection.subtract_blank_row (select_number two_wells) = Ok out /\
     (forall i l, (i < index_len (select_number two_wells))%nat ->
        In l (labels (select_number two_wells)) ->
        at_num out i l = num_sub (at_num (select_number two_wells) i l)
                                 (at_num (select_number two_wells) 0 l)) /\
     (forall l, In l (labels (select_number two_wells)) ->
        is_finite (at_num (select_number two_wells) 0 l) = true ->
        at_num out 0 l = Fin 0)).
Proof.
  exact (@background_correction_cells two_wells two_wells_plate 0 O
           (select_number two_wells)
           two_wells_well_formed eq_refl eq_refl eq_refl (Nat.lt_0_succ 1)).
Defined.

(** C4 (counterexample).  With a missing reading in the blank row the
    tables still match, yet the blank row of the result is NaN, not 0 (and
    so is the rest of the column), in the newer script and in
    [subtract_blank_row] of the older one. *)
Lemma blank_row_not_zero :
  well_formed blank_missing /\
  index_len zero_plate = index_len blank_missing /\
  numeric_labels zero_plate = numeric_labels blank_missing /\
  CurveFitting.separate_subtract_and_recombine blank_missing zero_plate 0
    = Ok (mkFrame 2 [(LStr "Row/Col", ObjCol [OStr "A1"; OStr "A2"]);
                     (LInt 220, NumCol [NaN; NaN])]) /\
  BackgroundCorrection.subtract_blank_row (select_number blank_missing)
    = Ok (mkFrame 2 [(LInt 220, [NaN; NaN])]).
Proof.
  split.
  { split; [apply unique_NoDup; reflexivity | repeat constructor]. }
  repeat split; reflexivity.
Qed.

(* ================================================================= *)
(** ** Column order and identifier columns *)

(** X1.  The newer [separate_subtract_and_recombine]: on aligned tables
    the result has the labels of the raw table in their order and its
    object columns untouched, for every blank index inside the rows. *)
Lemma curve_fitting_keeps_columns (raw plate : DataFrame) (b : Z) (k : nat) :
  well_formed raw ->
  index_len plate = index_len raw ->
  numeric_labels plate = numeric_labels raw ->
  positional (index_len raw) b = Ok k ->
  exists out,
    CurveFitting.separate_subtract_and_recombine raw plate b = Ok out /\
    labels out = labels raw /\
    forall l xs, In (l, ObjCol xs) (columns raw) -> In (l, ObjCol xs) (columns out).
Proof.
  intros WF Hn Hl P.
  destruct (@curve_fitting_correction_spec raw plate b k WF Hn Hl P)
    as [out [R [Lo [Io [Hobj Hnum]]]]].
  exists out. split; [exact R|]. split; [exact Lo|].
  intros l xs Hin. apply lookup_some_In. now apply Hobj.
Qed.

Lemma curve_fitting_keeps_columns_witness :
  exists out,
    CurveFitting.separate_subtract_and_recombine two_wells two_wells_plate 1 = Ok out /\
    labels out = labels two_wells /\
    forall l xs, In (l, ObjCol xs) (columns two_wells) -> In (l, ObjCol xs) (columns out).
Proof.
  apply (@curve_fitting_keeps_columns two_wells two_wells_plate 1 1 two_wells_well_formed);
    reflexivity.
Defined.

(** X2.  The older [separate_subtract_and_recombine]: on aligned tables
    with at least one row the object columns are untouched as well, but
    they come first, whatever their place in the raw table. *)
Lemma background_puts_identifiers_first (raw plate : DataFrame) :
  well_formed raw ->
  index_len plate = index_len raw ->
  numeric_labels plate = numeric_labels raw ->
  (0 < index_len raw)%nat ->
  exists out,
    BackgroundCorrection.separate_subtract_and_recombine raw plate = Ok out /\
    labels out = labels (select_non_number raw) ++ numeric_labels raw /\
    forall l xs, In (l, ObjCol xs) (columns raw) -> In (l, ObjCol xs) (columns out).
Proof.
  intros WF Hn Hl Hpos.
  destruct (@background_correction_spec raw plate WF Hn Hl Hpos)
    as [out [R [Lo [Io [Hobj Hnum]]]]].
  exists out. split; [exact R|]. split; [exact Lo|].
  intros l xs Hin. apply lookup_some_In. now apply Hobj.
Qed.

Lemma background_puts_identifiers_first_witness :
  exists out,
    BackgroundCorrection.separate_subtract_and_recombine two_wells two_wells_plate = Ok out /\
    labels out = labels (select_non_number two_wells) ++ numeric_labels two_wells /\
    forall l xs, In (l, ObjCol xs) (columns two_wells) -> In (l, ObjCol xs) (columns out).
Proof.
  apply (@background_puts_identifiers_first two_wells two_wells_plate two_wells_well_formed);
    try reflexivity. simpl. lia.
Defined.

(** C5 (the defect).  On a table with a numeric column ahead of an
    identifier column the older script, whose reordering line is commented
    out, returns the identifier column first; the newer script returns the
    columns in the order of the input. *)
Theorem background_recombine_reorders_columns :
  labels numeric_first = [LInt 220; LStr "Row/Col"] /\
  BackgroundCorrection.separate_subtract_and_recombine numeric_first numeric_first
    = Ok (mkFrame 1 [(LStr "Row/Col", ObjCol [OStr "A1"]); (LInt 220, NumCol [Fin 0])]) /\
  CurveFitting.separate_subtract_and_recombine numeric_first numeric_first 0
    = Ok (mkFrame 1 [(LInt 220, NumCol [Fin 0]); (LStr "Row/Col", ObjCol [OStr "A1"])]).
Proof. repeat split; reflexivity. Qed.

(* ================================================================= *)
(** ** Loading *)

(** X3.  The newer [load_data] never raises: whatever exception the read
    raises, the caller gets the empty table and one log line that carries
    that exception. *)
Lemma curve_fitting_load_data_recovers (read_csv : csv_reader) (path : string) (e : exn) :
  read_csv path true = Raise e ->
  exists line, CurveFitting.load_data read_csv path = (empty_frame, [line]) /\ snd line = e.
Proof.
  intro H. unfold CurveFitting.load_data. rewrite H.
  destruct e; eexists; split; reflexivity.
Qed.

Lemma curve_fitting_load_data_recovers_witness :
  exists line,
    CurveFitting.load_data no_files "volumes.csv" = (empty_frame, [line]) /\
    snd line = FileNotFoundError.
Proof.
  apply (@curve_fitting_load_data_recovers no_files "volumes.csv" FileNotFoundError).
  reflexivity.
Defined.

(** X4.  The newer [load_data_new] never raises either: whatever exception
    the read raises and whatever wavelengths are asked for, the caller gets
    the empty table and one log line that carries that exception. *)
Lemma curve_fitting_load_data_new_recovers
      (read_csv : csv_reader) (path : string) (s e : Z) (err : exn) :
  read_csv path false = Raise err ->
  exists line,
    CurveFitting.load_data_new read_csv path s e = (empty_frame, [line]) /\ snd line = err.
Proof.
  intro H. unfold CurveFitting.load_data_new. rewrite H. cbn [bind].
  destruct err; eexists; split; reflexivity.
Qed.

Lemma curve_fitting_load_data_new_recovers_witness :
  exists line,
    CurveFitting.load_data_new no_files "plate.csv" 220 1000 = (empty_frame, [line]) /\
    snd line = FileNotFoundError.
Proof.
  apply (@curve_fitting_load_data_new_recovers no_files "plate.csv" 220 1000 FileNotFoundError).
  reflexivity.
Defined.

(** The older [load_data] catches every exception, prints it and returns
    [None]. *)
Lemma background_load_data_recovers (read_csv : csv_reader) (path : string) (e : exn) :
  read_csv path true = Raise e ->
  BackgroundCorrection.load_data read_csv path
  = (None, [("Error loading file: "%string, e)]).
Proof.
  intro H. unfold BackgroundCorrection.load_data. now rewrite H.
Qed.

(** The older [load_data_new] has no handler: what [read_csv] raises, it
    raises. *)
Lemma background_load_data_new_propagates (read_csv : csv_reader) (path : string) (e : exn) :
  read_csv path false = Raise e ->
  BackgroundCorrection.load_data_new read_csv path = Raise e.
Proof.
  intro H. unfold BackgroundCorrection.load_data_new. now rewrite H.
Qed.

(** C8 (the defect).  For a path with no file behind it three of the four
    loaders return an empty result and a log line; [load_data_new] of the
    older script raises FileNotFoundError. *)
Theorem background_load_data_new_raises :
  CurveFitting.load_data no_files "missing.csv"
    = (empty_frame, [("Error: File not found - "%string, FileNotFoundError)]) /\
  CurveFitting.load_data_new no_files "missing.csv" 220 1000
    = (empty_frame, [("Error: File not found - "%string, FileNotFoundError)]) /\
  BackgroundCorrection.load_data no_files "missing.csv"
    = (None, [("Error loading file: "%string, FileNotFoundError)]) /\
  BackgroundCorrection.load_data_new no_files "missing.csv" = Raise FileNotFoundError.
Proof. repeat split; reflexivity. Qed.

(* ================================================================= *)
(** ** Batch processing *)

Lemma broadcast_same_length (f : num -> num -> num) (xs ys : ndarray) :
  length xs = length ys -> broadcast f xs ys = Ok (zip_with f xs ys).
Proof.
  intro H. unfold broadcast. apply Nat.eqb_eq in H. now rewrite H.
Qed.

Lemma curve_fitting_process_sample_inv
      (data_df volumes_df : DataFrame) (styrene polystyrene : ndarray)
      (range_start : nat) (range_end : option nat)
      (method : CurveFitting.deconvolution_method) (i : nat) (c1 a1 c2 a2 : num) :
  CurveFitting.process_sample data_df volumes_df styrene polystyrene
                              range_start range_end method i = Ok (c1, a1, c2, a2) ->
  fst (CurveFitting.fit_spectra
         (slice range_start range_end (row_values (select_number data_df) i))
         styrene polystyrene method) = Some (c1, c2) /\
  exists v0 v1,
    iloc_cell volumes_df i 0 = Ok v0 /\
    iloc_cell volumes_df i 1 = Ok v1 /\
    scaled v0 (Fin 0.025) (Fin 300) = Ok a1 /\
    scaled v1 (Fin 0.25) (Fin 300) = Ok a2.
Proof.
  unfold CurveFitting.process_sample.
  destruct (fst (CurveFitting.fit_spectra _ _ _ _)) as [[d1 d2]|]; [|discriminate].
  destruct (np_add _ _) as [fitted|]; cbn [bind]; [|discriminate].
  destruct (iloc_cell volumes_df i 0) as [v0|] eqn:I0; cbn [bind]; [|discriminate].
  destruct (scaled v0 _ _) as [s0|] eqn:S0; cbn [bind]; [|discriminate].
  destruct (iloc_cell volumes_df i 1) as [v1|] eqn:I1; cbn [bind]; [|discriminate].
  destruct (scaled v1 _ _) as [s1|] eqn:S1; cbn [bind]; [|discriminate].
  intro H. inversion H; subst. split; [reflexivity|].
  exists v0, v1. now repeat split.
Qed.

Lemma background_process_sample_inv
      (minimize : minimizer) (data_df volumes_df : DataFrame)
      (styrene polystyrene : ndarray)
      (range_start : nat) (range_end : option nat) (i : nat) (c1 a1 c2 a2 : num) :
  BackgroundCorrection.process_sample minimize data_df volumes_df styrene polystyrene
                                      range_start range_end i = Ok (c1, a1, c2, a2) ->
  BackgroundCorrection.fit_spectra minimize
    (slice range_start range_end (row_values (select_number data_df) i))
    styrene polystyrene = Ok (c1, c2) /\
  exists v0 v1,
    iloc_cell volumes_df i 0 = Ok v0 /\
    iloc_cell volumes_df i 1 = Ok v1 /\
    scaled v0 (Fin 0.025) (Fin 300) = Ok a1 /\
    scaled v1 (Fin 0.25) (Fin 300) = Ok a2.
Proof.
  unfold BackgroundCorrection.process_sample.
  destruct (BackgroundCorrection.fit_spectra _ _ _ _) as [[d1 d2]|]; cbn [bind];
    [|discriminate].
  destruct (np_add _ _) as [fitted|]; cbn [bind]; [|discriminate].
  destruct (iloc_cell volumes_df i 0) as [v0|] eqn:I0; cbn [bind]; [|discriminate].
  destruct (scaled v0 _ _) as [s0|] eqn:S0; cbn [bind]; [|discriminate].
  destruct (iloc_cell volumes_df i 1) as [v1|] eqn:I1; cbn [bind]; [|discriminate].
  destruct (scaled v1 _ _) as [s1|] eqn:S1; cbn [bind]; [|discriminate].
  intro H. inversion H; subst. split; [reflexivity|].
  exists v0, v1. now repeat split.
Qed.









(* ================================================================= *)
(** ** The script's entry point *)

Lemma map_fst_combine_eq {A B : Type} (xs : list A) (ys : list B) :
  length xs = length ys -> map fst (combine xs ys) = xs.
Proof.
  revert ys. induction xs as [|a xs IH]; intros [|b ys] H; simpl in *;
    try discriminate; [reflexivity|].
  f_equal. apply IH. now inversion H.
Qed.

Lemma labels_set_columns (df out : DataFrame) (new_labels : list label) :
  set_columns df new_labels = Ok out -> labels out = new_labels.
Proof.
  unfold set_columns.
  destruct (Nat.eqb (length (columns df)) (length new_labels)) eqn:E; [|discriminate].
  intro H. injection H as <-. unfold labels. cbn [columns].
  apply map_fst_combine_eq. apply Nat.eqb_eq in E. now rewrite length_map.
Qed.









Lemma toluene_plate_loaded :
  BackgroundCorrection.load_data_new toluene_files BackgroundCorrection.plate_path
  = Ok (relabelled (fun _ => 1)).
Proof. vm_compute. reflexivity. Qed.

Lemma toluene_data_loaded :
  BackgroundCorrection.load_data_new toluene_files BackgroundCorrection.data_path
  = Ok (relabelled (fun i => inject_Z (Z.of_nat i) + 2)).
Proof. vm_compute. reflexivity. Qed.


(** On those files the table [main] computes and drops differs from the one
    it saves: row 0 at 260 nm is 1 in the file, and would be -11 with the
    blank row 11 taken off. *)
Lemma blank_subtraction_dropped :
  exists t,
    apply_axis1 (fun row => Ok (series_sub row (skipn 1 (row_series toluene_corrected 11))))
                toluene_corrected = Ok t /\
    at_num t 0 (LInt 260) = Fin (-11) /\
    at_num toluene_corrected 0 (LInt 260) = Fin 1.
Proof.
  eexists. split; [vm_compute; reflexivity|].
  split; vm_compute; reflexivity.
Qed.

(* ================================================================= *)
(** ** Recovering the coefficients of an exact mixture *)

Lemma length_zip_with {A B C : Type} (f : A -> B -> C) (xs : list A) (ys : list B) :
  length xs = length ys -> length (zip_with f xs ys) = length xs.
Proof.
  revert ys. induction xs as [|a xs IH]; intros [|b ys] H; simpl in *;
    try discriminate; [reflexivity|]. f_equal. apply IH. now inversion H.
Qed.

Lemma map_fst_combine (r1 r2 : list Q) :
  length r1 = length r2 ->
  map Fin r1 = map (fun xy => Fin (fst xy)) (combine r1 r2) /\
  map Fin r2 = map (fun xy => Fin (snd xy)) (combine r1 r2).
Proof.
  revert r2. induction r1 as [|a r1 IH]; intros [|b r2] H; simpl in *;
    try discriminate; [now split|].
  destruct (IH r2) as [A B]; [now inversion H|].
  split; f_equal; assumption.
Qed.

(** The mixture spectrum, wavelength by wavelength. *)
Lemma mixture_spectrum (c : coeffs) (r1 r2 : list Q) :
  length r1 = length r2 ->
  np_add (np_scale (fst c) (map Fin r1)) (np_scale (snd c) (map Fin r2))
  = Ok (map (mix c) (combine r1 r2)).
Proof.
  intro H. destruct (map_fst_combine r1 r2 H) as [-> ->].
  unfold np_add, np_scale. rewrite !map_map.
  rewrite broadcast_same_length by now rewrite !length_map.
  now rewrite zip_with_map_same.
Qed.

(** The objective of the fit at [c], for an observed spectrum that is the
    mixture with coefficients [c0]. *)
Lemma residuals_of_mixture (c0 c : coeffs) (r1 r2 : list Q) :
  length r1 = length r2 ->
  CurveFitting.residuals (map (mix c0) (combine r1 r2)) (map Fin r1) (map Fin r2) c
  = Ok (np_sum (np_square (map (fun xy => num_sub (mix c0 xy) (mix c xy))
                               (combine r1 r2)))).
Proof.
  intro H. unfold CurveFitting.residuals. destruct c as [c1 c2].
  pose proof (mixture_spectrum (c1, c2) r1 r2 H) as M. cbn [fst snd] in M.
  rewrite M. cbn [bind].
  unfold np_sub. rewrite broadcast_same_length by now rewrite !length_map.
  cbn [bind]. now rewrite zip_with_map_same.
Qed.








Lemma fold_zero_squares (l : ndarray) :
  (forall d, In d l -> d = Fin 0) -> np_sum (np_square l) = Fin 0.
Proof.
  unfold np_sum. induction l as [|v l IH]; simpl; intro H; [reflexivity|].
  rewrite (H v) by now left.
  change (num_add (Fin 0) (num_square (Fin 0))) with (Fin 0).
  apply IH. intros. apply H. now right.
Qed.

Lemma mix_finite (a b : Q) (xy : Q * Q) : is_finite (mix (Fin a, Fin b) xy) = true.
Proof. reflexivity. Qed.







Lemma num_square_not_ninf (v : num) : num_square v <> NInf.
Proof.
  destruct v as [q| | |]; simpl; discriminate.
Qed.

Lemma fold_squares_not_ninf (l : ndarray) (acc : num) :
  acc <> NInf -> fold_left num_add (np_square l) acc <> NInf.
Proof.
  revert acc. induction l as [|v l IH]; simpl; intros acc H; [assumption|].
  apply IH. pose proof (num_square_not_ninf v) as S.
  destruct acc, (num_square v); simpl; congruence.
Qed.

(** At the true coefficients the objective is 0, so an answer whose
    objective is at most [eps] exists inside the bounds for every
    [eps >= 0] when [a, b >= 0]. *)
Lemma residuals_at_truth (a b : Q) (r1 r2 : list Q) :
  length r1 = length r2 ->
  CurveFitting.residuals (map (mix (Fin a, Fin b)) (combine r1 r2))
                         (map Fin r1) (map Fin r2) (Fin a, Fin b) = Ok (Fin 0).
Proof.
  intro H. rewrite residuals_of_mixture by assumption. f_equal.
  apply fold_zero_squares. intros d Hd.
  apply in_map_iff in Hd as [xy [<- _]]. apply num_sub_diag, mix_finite.
Qed.




(** The second half of the property fails on its own as well: the all-zero
    spectrum is [0 * ref1 + 0 * ref2], the fit [(0, 0)] reproduces it
    exactly, and its R-squared is NaN. *)
Lemma zero_mixture_has_no_r_squared :
  np_add (np_scale (Fin 0) [Fin 1; Fin 0]) (np_scale (Fin 0) [Fin 0; Fin 1])
    = Ok [Fin 0; Fin 0] /\
  CurveFitting.calculate_r_squared [Fin 0; Fin 0] [Fin 0; Fin 0] = Ok NaN.
Proof. split; reflexivity. Qed.

(* ================================================================= *)
(** ** Separating and recombining the columns *)

(** Two column lists with the same distinct labels and the same column
    under every label are the same list. *)
Lemma columns_ext {C : Type} (xs ys : list (label * C)) :
  map fst xs = map fst ys ->
  NoDup (map fst xs) ->
  (forall l, In l (map fst xs) -> lookup l xs = lookup l ys) ->
  xs = ys.
Proof.
  revert ys. induction xs as [|[k c] xs IH]; intros [|[k' c'] ys] E ND H;
    try discriminate; [reflexivity|].
  simpl in E. injection E as -> E.
  inversion ND as [|? ? Hk ND']; subst.
  pose proof (H k' (or_introl eq_refl)) as Hk'. simpl in Hk'.
  rewrite label_eqb_refl in Hk'. injection Hk' as ->.
  f_equal. apply IH; [assumption|assumption|].
  intros l Hl. specialize (H l (or_intror Hl)). simpl in H.
  destruct (label_eqb l k') eqn:El; [|exact H].
  apply label_eqb_eq in El. subst. contradiction.
Qed.

Lemma frame_ext {C : Type} (f g : Frame C) :
  index_len f = index_len g ->
  labels f = labels g ->
  NoDup (labels f) ->
  (forall l, In l (labels f) -> lookup l (columns f) = lookup l (columns g)) ->
  f = g.
Proof.
  destruct f as [n xs], g as [m ys]. unfold labels. cbn [index_len columns].
  intros -> E ND H. f_equal. now apply columns_ext.
Qed.

Lemma lookup_concat_separated (df : DataFrame) (l : label) :
  well_formed df ->
  In l (labels df) ->
  lookup l (columns (concat_columns (select_non_number df) (select_number df)))
  = lookup l (columns df).
Proof.
  intros [ND Len] Hin.
  rewrite lookup_concat_columns.
  rewrite lookup_select_non_number, lookup_select_number by assumption.
  cbn [select_non_number select_number index_len]. rewrite Nat.max_id.
  apply in_labels_column in Hin as [c Hin].
  rewrite Forall_forall in Len. pose proof (Len _ Hin) as Lc. cbn [snd] in Lc.
  apply (lookup_In l c (columns df) ND) in Hin. rewrite Hin.
  destruct c as [xs|xs]; cbn [option_map col_length] in *;
    now rewrite pad_exact.
Qed.

(** X5.  In the newer script [recombine_data] undoes [separate_columns]: for
    a table with distinct labels and full columns, recombining the three
    parts that [separate_columns] returns gives the table back, every column
    in its place. *)
Theorem curve_fitting_recombine_undoes_separate
        (df : DataFrame) (numeric : NumFrame) (non_numeric : ObjFrame) (cols : list label) :
  well_formed df ->
  CurveFitting.separate_columns df = (numeric, non_numeric, cols) ->
  CurveFitting.recombine_data numeric non_numeric cols = Ok df.
Proof.
  intros WF E. unfold CurveFitting.separate_columns in E. injection E as <- <- <-.
  pose proof WF as [ND Len].
  unfold CurveFitting.recombine_data.
  set (combined := concat_columns (select_non_number df) (select_number df)).
  destruct (@reindex_columns_spec combined (labels df)) as [out [R [Lo [Io Look]]]].
  - unfold combined. rewrite labels_concat_columns. now apply split_labels_NoDup.
  - intros l Hin. unfold combined. rewrite labels_concat_columns. apply in_app_iff.
    apply in_labels_column in Hin as [[xs|xs] Hin].
    + right. apply in_numeric_labels. now exists xs.
    + left. apply in_object_labels. now exists xs.
  - rewrite R. f_equal. apply frame_ext.
    + rewrite Io. unfold combined. cbn [concat_columns select_non_number select_number index_len].
      apply Nat.max_id.
    + exact Lo.
    + now rewrite Lo.
    + intros l Hin. rewrite Lo in Hin. rewrite (Look l Hin).
      now apply lookup_concat_separated.
Qed.

Lemma two_wells_separated :
  CurveFitting.separate_columns two_wells
  = (select_number two_wells, select_non_number two_wells, labels two_wells).
Proof. reflexivity. Qed.

Lemma curve_fitting_recombine_undoes_separate_witness :
  CurveFitting.recombine_data (select_number two_wells) (select_non_number two_wells)
                              (labels two_wells) = Ok two_wells.
Proof.
  apply (@curve_fitting_recombine_undoes_separate two_wells _ _ _ two_wells_well_formed
           two_wells_separated).
Defined.

Lemma flat_map_object (cols : list (label * column)) (n : nat) :
  Forall (fun lc => col_length (snd lc) = n) cols ->
  map (fun lc : label * list obj => (fst lc, ObjCol (pad n OMissing (snd lc))))
      (flat_map (fun lc : label * column => match snd lc with
                            | NumCol _ => []
                            | ObjCol xs => [(fst lc, xs)]
                            end) cols)
  = filter is_object cols.
Proof.
  induction 1 as [|[l [xs|xs]] cols Hx _ IH]; cbn [flat_map filter is_object snd fst app map];
    [reflexivity|exact IH|].
  cbn [snd col_length] in Hx. rewrite (@pad_exact _ n OMissing xs Hx). now rewrite IH.
Qed.

Lemma flat_map_numeric (cols : list (label * column)) (n : nat) :
  Forall (fun lc => col_length (snd lc) = n) cols ->
  map (fun lc : label * list num => (fst lc, NumCol (pad n NaN (snd lc))))
      (flat_map (fun lc : label * column => match snd lc with
                            | NumCol xs => [(fst lc, xs)]
                            | ObjCol _ => []
                            end) cols)
  = filter (fun lc => negb (is_object lc)) cols.
Proof.
  induction 1 as [|[l [xs|xs]] cols Hx _ IH];
    cbn [flat_map filter is_object snd fst app map negb];
    [reflexivity| |exact IH].
  cbn [snd col_length] in Hx. rewrite (@pad_exact _ n NaN xs Hx). now rewrite IH.
Qed.

Lemma filter_split_permutation {A : Type} (p : A -> bool) (l : list A) :
  Permutation (filter p l ++ filter (fun a => negb (p a)) l) l.
Proof.
  induction l as [|a l IH]; [constructor|].
  cbn [filter]. destruct (p a); cbn [negb app].
  - now constructor.
  - symmetry. apply Permutation_cons_app. now symmetry.
Qed.

(** X6.  In the older script [recombine_data] after [separate_columns] is a
    stable partition: the object columns come first, the numeric columns
    after them, each group in its original order and every column with the
    cells it had.  No column is lost or added; the third part returned by
    [separate_columns], the original order, plays no role. *)
Theorem background_recombine_moves_identifiers_first
        (df : DataFrame) (numeric : NumFrame) (non_numeric : ObjFrame) (cols : list label) :
  Forall (fun lc => col_length (snd lc) = index_len df) (columns df) ->
  BackgroundCorrection.separate_columns df = (numeric, non_numeric, cols) ->
  let out := BackgroundCorrection.recombine_data numeric non_numeric cols in
  index_len out = index_len df /\
  columns out = filter is_object (columns df)
                ++ filter (fun lc => negb (is_object lc)) (columns df) /\
  Permutation (columns out) (columns df).
Proof.
  intros Len E. unfold BackgroundCorrection.separate_columns in E. injection E as <- <- <-.
  cbn zeta. unfold BackgroundCorrection.recombine_data, concat_columns.
  cbn [select_non_number select_number index_len columns]. rewrite Nat.max_id.
  rewrite (flat_map_object Len), (flat_map_numeric Len).
  split; [reflexivity|]. split; [reflexivity|].
  apply filter_split_permutation.
Qed.

Lemma numeric_first_columns_full :
  Forall (fun lc => col_length (snd lc) = index_len numeric_first) (columns numeric_first).
Proof. repeat constructor. Qed.

Lemma background_recombine_moves_identifiers_first_witness :
  columns (BackgroundCorrection.recombine_data (select_number numeric_first)
             (select_non_number numeric_first) (labels numeric_first))
  = [(LStr "Row/Col", ObjCol [OStr "A1"]); (LInt 220, NumCol [Fin 1])].
Proof.
  apply (proj1 (proj2 (@background_recombine_moves_identifiers_first numeric_first
                         (select_number numeric_first) (select_non_number numeric_first)
                         (labels numeric_first) numeric_first_columns_full eq_refl))).
Defined.

(* ================================================================= *)
(** ** The blank index *)

Lemma positional_outside (n : nat) (b : Z) :
  (b < - Z.of_nat n \/ Z.of_nat n <= b)%Z -> positional n b = Raise IndexError.
Proof.
  intros H. unfold positional.
  destruct ((0 <=? b) && (b <? Z.of_nat n))%Z eqn:A.
  - apply andb_true_iff in A as [A1 A2]. lia.
  - destruct ((- Z.of_nat n <=? b) && (b <? 0))%Z eqn:B; [|reflexivity].
    apply andb_true_iff in B as [B1 B2]. lia.
Qed.

Lemma positional_negative (n : nat) (b : Z) :
  (- Z.of_nat n <= b < 0)%Z -> positional n b = positional n (Z.of_nat n + b).
Proof.
  intros H. unfold positional.
  replace ((0 <=? b) && (b <? Z.of_nat n))%Z with false
    by (symmetry; apply andb_false_iff; left; lia).
  replace ((- Z.of_nat n <=? b) && (b <? 0))%Z with true
    by (symmetry; apply andb_true_iff; lia).
  replace ((0 <=? Z.of_nat n + b) && (Z.of_nat n + b <? Z.of_nat n))%Z with true
    by (symmetry; apply andb_true_iff; lia).
  reflexivity.
Qed.

(** X7.  The newer [separate_subtract_and_recombine] raises IndexError for
    a [blank_index] outside the rows: with [n] the larger of the two row
    counts, every [blank_index >= n] and every [blank_index < -n] ends in
    IndexError, whatever the tables hold.  Two tables without rows raise it
    for every index. *)
Theorem blank_index_out_of_range (raw plate : DataFrame) (blank_index : Z) :
  (blank_index < - Z.of_nat (Nat.max (index_len raw) (index_len plate)) \/
   Z.of_nat (Nat.max (index_len raw) (index_len plate)) <= blank_index)%Z ->
  CurveFitting.separate_subtract_and_recombine raw plate blank_index = Raise IndexError.
Proof.
  intros H.
  unfold CurveFitting.separate_subtract_and_recombine, CurveFitting.separate_columns, iloc_row.
  rewrite index_len_frame_sub. cbn [select_number index_len].
  now rewrite (positional_outside _ H).
Qed.

Lemma blank_index_out_of_range_witness :
  CurveFitting.separate_subtract_and_recombine two_wells two_wells_plate 2 = Raise IndexError.
Proof.
  apply (@blank_index_out_of_range two_wells two_wells_plate 2).
  simpl. lia.
Defined.

(** X8.  A negative [blank_index] counts rows from the end: for
    [-n <= blank_index < 0] the newer [separate_subtract_and_recombine]
    does what it does for [n + blank_index], result and exception alike. *)
Theorem blank_index_counts_from_the_end (raw plate : DataFrame) (blank_index : Z) :
  (- Z.of_nat (Nat.max (index_len raw) (index_len plate)) <= blank_index < 0)%Z ->
  CurveFitting.separate_subtract_and_recombine raw plate blank_index
  = CurveFitting.separate_subtract_and_recombine raw plate
      (Z.of_nat (Nat.max (index_len raw) (index_len plate)) + blank_index).
Proof.
  intros H.
  unfold CurveFitting.separate_subtract_and_recombine, CurveFitting.separate_columns, iloc_row.
  rewrite index_len_frame_sub. cbn [select_number index_len].
  now rewrite (positional_negative _ H).
Qed.

Lemma blank_index_counts_from_the_end_witness :
  CurveFitting.separate_subtract_and_recombine two_wells two_wells_plate (-1)
  = CurveFitting.separate_subtract_and_recombine two_wells two_wells_plate 1.
Proof.
  apply (@blank_index_counts_from_the_end two_wells two_wells_plate (-1)).
  simpl. lia.
Defined.

(* ================================================================= *)
(** ** The two corrections side by side *)

Lemma sub_cells_no_fill (f a b : num) :
  is_finite a = true -> is_finite b = true ->
  sub_cells (Some f) a b = sub_cells None a b.
Proof. destruct a, b; simpl; try discriminate; reflexivity. Qed.

Lemma corrected_cell_no_fill (f : num) (raw plate : DataFrame) (i : nat) (l : label) :
  well_formed raw -> all_finite raw -> well_formed plate -> all_finite plate ->
  index_len plate = index_len raw ->
  numeric_labels plate = numeric_labels raw ->
  In l (numeric_labels raw) -> (i < index_len raw)%nat ->
  corrected_cell (Some f) raw plate i l = corrected_cell None raw plate i l.
Proof.
  intros W1 F1 W2 F2 Hn Hl Hin Hi. unfold corrected_cell.
  apply sub_cells_no_fill.
  - now apply finite_cell.
  - apply finite_cell; try assumption; [now rewrite Hl|now rewrite Hn].
Qed.

(** X9.  On the input both scripts are written for, they compute the same
    table: for two aligned tables with distinct labels, full columns and
    finite readings, and a raw table whose identifier columns come before
    its numeric ones, the newer [separate_subtract_and_recombine] with
    [blank_index = 0] and the older one return the same result (the same
    IndexError when the tables have no rows). *)
Theorem corrections_agree (raw plate : DataFrame) :
  well_formed raw -> all_finite raw ->
  well_formed plate -> all_finite plate ->
  index_len plate = index_len raw ->
  numeric_labels plate = numeric_labels raw ->
  labels raw = labels (select_non_number raw) ++ numeric_labels raw ->
  CurveFitting.separate_subtract_and_recombine raw plate 0
  = BackgroundCorrection.separate_subtract_and_recombine raw plate.
Proof.
  intros W1 F1 W2 F2 Hn Hl Hord.
  destruct (index_len raw) as [|n] eqn:En.
  - unfold CurveFitting.separate_subtract_and_recombine,
      BackgroundCorrection.separate_subtract_and_recombine,
      CurveFitting.separate_columns, BackgroundCorrection.separate_columns,
      BackgroundCorrection.subtract_background, BackgroundCorrection.subtract_blank_row,
      iloc_row.
    rewrite !index_len_frame_sub. cbn [select_number index_len]. rewrite Hn, En.
    reflexivity.
  - assert (Pos : (0 < index_len raw)%nat) by lia.
    assert (P : positional (index_len raw) 0 = Ok O) by now apply positional_zero.
    rewrite <- En in Hn.
    destruct (@curve_fitting_correction_spec raw plate 0 O W1 Hn Hl P)
      as [o1 [E1 [L1 [I1 [O1 N1]]]]].
    destruct (@background_correction_spec raw plate W1 Hn Hl Pos)
      as [o2 [E2 [L2 [I2 [O2 N2]]]]].
    rewrite E1, E2. f_equal. apply frame_ext.
    + now rewrite I1, I2.
    + now rewrite L1, L2.
    + rewrite L1. apply W1.
    + intros l Hin. rewrite L1 in Hin.
      apply in_labels_column in Hin as [[xs|xs] Hin].
      * assert (Hnum : In l (numeric_labels raw)) by (apply in_numeric_labels; now exists xs).
        rewrite (N1 l Hnum), (N2 l Hnum). do 2 f_equal.
        unfold blank_corrected_column. apply map_ext_in. intros i Hi.
        apply in_seq in Hi.
        rewrite !(@corrected_cell_no_fill (Fin 0) raw plate) by (try assumption; lia).
        reflexivity.
      * now rewrite (O1 l xs Hin), (O2 l xs Hin).
Qed.

Lemma two_wells_plate_well_formed : well_formed two_wells_plate.
Proof.
  split.
  - apply unique_NoDup. reflexivity.
  - repeat constructor.
Qed.

Lemma two_wells_plate_all_finite : all_finite two_wells_plate.
Proof.
  intros l xs Hin. simpl in Hin.
  destruct Hin as [H|[H|[H|[]]]]; inversion H; subst; repeat constructor.
Qed.

Lemma corrections_agree_witness :
  CurveFitting.separate_subtract_and_recombine two_wells two_wells_plate 0
  = BackgroundCorrection.separate_subtract_and_recombine two_wells two_wells_plate.
Proof.
  apply (@corrections_agree two_wells two_wells_plate
           two_wells_well_formed two_wells_all_finite
           two_wells_plate_well_formed two_wells_plate_all_finite);
    reflexivity.
Defined.

Lemma at_num_minus_row (f : NumFrame) (k i : nat) (l : label) :
  (i < index_len f)%nat -> In l (labels f) ->
  at_num (minus_row f k) i l = num_sub (at_num f i l) (at_num f k l).
Proof.
  intros Hi Hl. unfold at_num at 1, minus_row. cbn [columns].
  rewrite (lookup_keyed (fun l => map (fun i => num_sub (at_num f i l) (at_num f k l))
                                      (seq 0 (index_len f))) l (labels f) Hl).
  cbn [cell]. now rewrite nth_map_seq.
Qed.

Lemma num_sub_blank_twice (v : num) (q : Q) :
  num_sub (num_sub v (Fin q)) (num_sub (Fin q) (Fin q)) = num_sub v (Fin q).
Proof.
  destruct v as [p| | |]; simpl; try reflexivity.
  f_equal. apply Qred_complete. rewrite !Qred_correct. ring.
Qed.

(** X10.  [subtract_blank_row] of the older script is idempotent on a
    table whose first row is finite: what it returns is left unchanged by a
    second pass, since the first row of the result is zero. *)
Theorem subtract_blank_row_idempotent (f out : NumFrame) :
  (forall l, In l (labels f) -> is_finite (at_num f 0 l) = true) ->
  BackgroundCorrection.subtract_blank_row f = Ok out ->
  BackgroundCorrection.subtract_blank_row out = Ok out.
Proof.
  intros HF E.
  destruct (index_len f) as [|n] eqn:En.
  - unfold BackgroundCorrection.subtract_blank_row in E.
    rewrite En, positional_empty in E. discriminate.
  - assert (Pos : (0 < index_len f)%nat) by lia.
    rewrite (subtract_blank_row_spec f Pos) in E. injection E as <-.
    rewrite subtract_blank_row_spec by exact Pos.
    f_equal. unfold minus_row at 1 3. rewrite labels_minus_row.
    cbn [index_len minus_row]. f_equal.
    apply map_ext_in. intros l Hl. f_equal.
    apply map_ext_in. intros i Hi. apply in_seq in Hi.
    rewrite !at_num_minus_row by (try assumption; lia).
    specialize (HF l Hl). destruct (at_num f 0 l) as [q| | |] eqn:B; try discriminate.
    apply num_sub_blank_twice.
Qed.

Lemma subtract_blank_row_idempotent_witness :
  BackgroundCorrection.subtract_blank_row
    (mkFrame 2 [(LInt 220, [Fin 0; Fin (-1 # 2)]); (LInt 221, [Fin 0; Fin (-7 # 4)])])
  = Ok (mkFrame 2 [(LInt 220, [Fin 0; Fin (-1 # 2)]); (LInt 221, [Fin 0; Fin (-7 # 4)])]).
Proof.
  apply (@subtract_blank_row_idempotent (select_number two_wells)).
  - intros l Hl. simpl in Hl. destruct Hl as [<-|[<-|[]]]; reflexivity.
  - vm_compute. reflexivity.
Defined.

(* ================================================================= *)
(** ** The range of R-squared and of the objective *)

Lemma one_minus_ratio_le (ss_res ss_tot : num) (r v : Q) :
  ss_res = Fin r -> 0 <= r ->
  (forall t, ss_tot = Fin t -> 0 <= t) ->
  num_sub (Fin 1) (num_div ss_res ss_tot) = Fin v -> v <= 1.
Proof.
  intros -> Hr Ht E.
  destruct ss_tot as [t| | |]; simpl in E; try discriminate.
  - specialize (Ht t eq_refl).
    destruct (Qeq_bool t 0) eqn:Z.
    + destruct (r ?= 0); simpl in E; discriminate.
    + apply Qeq_bool_false_neq in Z. simpl in E. injection E as <-.
      rewrite !Qred_correct.
      assert (0 < t) by (apply Qle_lteq in Ht as [H|H]; [exact H|now symmetry in H]).
      assert (0 <= r / t) by (apply Qle_shift_div_l; [assumption|lra]).
      lra.
  - injection E as <-. rewrite Qred_correct. lra.
  - injection E as <-. rewrite Qred_correct. lra.
Qed.

Lemma r_squared_le_one (sample fitted : ndarray) (v : Q) :
  CurveFitting.calculate_r_squared sample fitted = Ok (Fin v) -> v <= 1.
Proof.
  unfold CurveFitting.calculate_r_squared. intros E.
  destruct (np_sub sample fitted) as [diff|e]; cbn [bind] in E; [|discriminate].
  injection E as E.
  destruct (np_sum (np_square diff)) as [r| | |] eqn:R.
  - apply (@one_minus_ratio_le (Fin r) (CurveFitting.sum_sq_total sample) r v eq_refl);
      [now apply (sum_squares_nonneg diff)| |exact E].
    intros t T. now apply (sum_squares_nonneg _ T).
  - destruct (CurveFitting.sum_sq_total sample) as [t| | |]; simpl in E; try discriminate.
    destruct (Qle_bool 0 t); discriminate.
  - destruct (CurveFitting.sum_sq_total sample) as [t| | |]; simpl in E; try discriminate.
    destruct (Qle_bool 0 t); discriminate.
  - discriminate.
Qed.

(** X11.  Whenever [calculate_r_squared] (either script) returns a finite
    number, that number is at most 1; there is no lower limit. *)
Theorem r_squared_at_most_one (sample fitted : ndarray) (v : Q) :
  (CurveFitting.calculate_r_squared sample fitted = Ok (Fin v) -> v <= 1) /\
  (BackgroundCorrection.calculate_r_squared sample fitted = Ok (Fin v) -> v <= 1).
Proof. split; apply r_squared_le_one. Qed.

Lemma r_squared_at_most_one_witness :
  ((-3 # 1) <= 1) /\ ((-3 # 1) <= 1).
Proof.
  split.
  - apply (proj1 (@r_squared_at_most_one [Fin 1; Fin 2; Fin 3] [Fin 3; Fin 2; Fin 1] (-3 # 1))).
    vm_compute. reflexivity.
  - apply (proj2 (@r_squared_at_most_one [Fin 1; Fin 2; Fin 3] [Fin 3; Fin 2; Fin 1] (-3 # 1))).
    vm_compute. reflexivity.
Defined.

Lemma zip_with_repeat {A B C : Type} (f : A -> B -> C) (xs : list A) (y : B) :
  zip_with f xs (repeat y (length xs)) = map (fun x => f x y) xs.
Proof. induction xs as [|x xs IH]; simpl; [reflexivity|now rewrite IH]. Qed.

Lemma ratio_to_itself (t : Q) :
  ~ t == 0 -> num_sub (Fin 1) (num_div (Fin t) (Fin t)) = Fin 0.
Proof.
  intros Ht. simpl.
  destruct (Qeq_bool t 0) eqn:Z; [apply Qeq_bool_iff in Z; contradiction|].
  simpl. f_equal. apply (Qred_complete (1 - Qred (t / t)) 0).
  rewrite Qred_correct. field. exact Ht.
Qed.

(** X12.  The constant spectrum at the mean of the sample scores exactly 0:
    for a sample whose total sum of squares is finite and not zero,
    [calculate_r_squared] of the sample against its own mean, repeated at
    every wavelength, is 0 in both scripts. *)
Theorem r_squared_of_the_mean (sample : ndarray) (t : Q) :
  CurveFitting.sum_sq_total sample = Fin t -> ~ t == 0 ->
  CurveFitting.calculate_r_squared sample (repeat (np_mean sample) (length sample))
    = Ok (Fin 0) /\
  BackgroundCorrection.calculate_r_squared sample (repeat (np_mean sample) (length sample))
    = Ok (Fin 0).
Proof.
  intros T Ht.
  assert (CurveFitting.calculate_r_squared sample (repeat (np_mean sample) (length sample))
          = Ok (Fin 0)).
  { unfold CurveFitting.calculate_r_squared, np_sub.
    rewrite broadcast_same_length by now rewrite repeat_length.
    cbn [bind]. rewrite zip_with_repeat.
    change (map (fun x => num_sub x (np_mean sample)) sample)
      with (np_sub_scalar sample (np_mean sample)).
    fold (CurveFitting.sum_sq_total sample). rewrite T.
    now rewrite ratio_to_itself. }
  split; [assumption|exact H].
Qed.

Lemma r_squared_of_the_mean_witness :
  CurveFitting.calculate_r_squared [Fin 1; Fin 2; Fin 3] (repeat (np_mean [Fin 1; Fin 2; Fin 3]) 3)
    = Ok (Fin 0) /\
  BackgroundCorrection.calculate_r_squared [Fin 1; Fin 2; Fin 3]
    (repeat (np_mean [Fin 1; Fin 2; Fin 3]) 3) = Ok (Fin 0).
Proof.
  apply (@r_squared_of_the_mean [Fin 1; Fin 2; Fin 3] 2).
  - vm_compute. reflexivity.
  - vm_compute. discriminate.
Defined.

Lemma broadcast_mismatch (f : num -> num -> num) (xs ys : ndarray) :
  length xs <> length ys -> length xs <> 1%nat -> length ys <> 1%nat ->
  broadcast f xs ys = Raise ValueError.
Proof.
  intros H H1 H2. unfold broadcast.
  destruct (Nat.eqb (length xs) (length ys)) eqn:E; [apply Nat.eqb_eq in E; contradiction|].
  destruct xs as [|x [|x' xs]]; [| simpl in H1; contradiction |];
    destruct ys as [|y [|y' ys]]; try reflexivity; simpl in *; contradiction.
Qed.

(** X13.  [calculate_r_squared] does not cut or pad its arguments: a sample
    and a fitted spectrum of different lengths, neither of length 1, raise
    ValueError in both scripts. *)
Theorem r_squared_of_unequal_lengths (sample fitted : ndarray) :
  length sample <> length fitted ->
  length sample <> 1%nat -> length fitted <> 1%nat ->
  CurveFitting.calculate_r_squared sample fitted = Raise ValueError /\
  BackgroundCorrection.calculate_r_squared sample fitted = Raise ValueError.
Proof.
  intros H H1 H2.
  unfold CurveFitting.calculate_r_squared, BackgroundCorrection.calculate_r_squared, np_sub.
  now rewrite (@broadcast_mismatch num_sub sample fitted H H1 H2).
Qed.

Lemma r_squared_of_unequal_lengths_witness :
  CurveFitting.calculate_r_squared [Fin 1; Fin 2; Fin 3] [Fin 1; Fin 2] = Raise ValueError /\
  BackgroundCorrection.calculate_r_squared [Fin 1; Fin 2; Fin 3] [Fin 1; Fin 2]
    = Raise ValueError.
Proof.
  apply (@r_squared_of_unequal_lengths [Fin 1; Fin 2; Fin 3] [Fin 1; Fin 2]); simpl; lia.
Defined.

Lemma residuals_not_negative (sample styrene polystyrene : ndarray) (c : coeffs) (w : num) :
  CurveFitting.residuals sample styrene polystyrene c = Ok w ->
  w <> NInf /\ forall r, w = Fin r -> 0 <= r.
Proof.
  unfold CurveFitting.residuals. destruct c as [c1 c2]. intros E.
  destruct (np_add (np_scale c1 styrene) (np_scale c2 polystyrene)) as [comb|e];
    cbn [bind] in E; [|discriminate].
  destruct (np_sub sample comb) as [diff|e]; cbn [bind] in E; [|discriminate].
  injection E as <-. split.
  - unfold np_sum. apply fold_squares_not_ninf. discriminate.
  - intros r R. now apply (sum_squares_nonneg diff).
Qed.

(** X14.  The objective handed to the optimizer, [residuals], is never
    negative: at every point where it returns a value, for any spectra and
    any coefficients, the value is not -inf, and when it is finite it is at
    least 0.  This holds for both scripts. *)
Theorem objective_never_negative
        (sample styrene polystyrene : ndarray) (c : coeffs) (w : num) :
  (CurveFitting.residuals sample styrene polystyrene c = Ok w ->
   w <> NInf /\ forall r, w = Fin r -> 0 <= r) /\
  (BackgroundCorrection.residuals sample styrene polystyrene c = Ok w ->
   w <> NInf /\ forall r, w = Fin r -> 0 <= r).
Proof. split; apply residuals_not_negative. Qed.

Lemma objective_never_negative_witness :
  (Fin (5 # 2) <> NInf /\ forall r, Fin (5 # 2) = Fin r -> 0 <= r) /\
  (Fin (5 # 2) <> NInf /\ forall r, Fin (5 # 2) = Fin r -> 0 <= r).
Proof.
  split.
  - apply (proj1 (@objective_never_negative [Fin 1; Fin 2] [Fin 1; Fin 0] [Fin 0; Fin 1]
                    (Fin 0.5, Fin 0.5) (Fin (5 # 2)))).
    vm_compute. reflexivity.
  - apply (proj2 (@objective_never_negative [Fin 1; Fin 2] [Fin 1; Fin 0] [Fin 0; Fin 1]
                    (Fin 0.5, Fin 0.5) (Fin (5 # 2)))).
    vm_compute. reflexivity.
Defined.

(* ================================================================= *)
(** ** The labels given on loading *)

Lemma length_zrange (a b : Z) : length (zrange a b) = Z.to_nat (b - a).
Proof. unfold zrange. now rewrite length_map, length_seq. Qed.

Lemma map_snd_combine_eq {A B : Type} (xs : list A) (ys : list B) :
  length xs = length ys -> map snd (combine xs ys) = ys.
Proof.
  revert ys. induction xs as [|x xs IH]; intros [|y ys] H; simpl in *;
    try discriminate; [reflexivity|]. f_equal. apply IH. lia.
Qed.

Lemma set_columns_keeps_cells (df out : DataFrame) (new_labels : list label) :
  set_columns df new_labels = Ok out ->
  labels out = new_labels /\ map snd (columns out) = map snd (columns df) /\
  index_len out = index_len df.
Proof.
  intros E. split; [now apply (labels_set_columns df)|].
  unfold set_columns in E.
  destruct (Nat.eqb (length (columns df)) (length new_labels)) eqn:L; [|discriminate].
  apply Nat.eqb_eq in L. injection E as <-. cbn [columns index_len]. split; [|reflexivity].
  apply map_snd_combine_eq. now rewrite length_map.
Qed.

Lemma set_columns_ok (df : DataFrame) (new_labels : list label) :
  length (columns df) = length new_labels ->
  exists out, set_columns df new_labels = Ok out.
Proof.
  intros L. unfold set_columns. apply Nat.eqb_eq in L. rewrite L. eauto.
Qed.

Lemma set_columns_mismatch (df : DataFrame) (new_labels : list label) :
  length (columns df) <> length new_labels ->
  set_columns df new_labels = Raise ValueError.
Proof.
  intros L. unfold set_columns. apply Nat.eqb_neq in L. now rewrite L.
Qed.

Lemma length_wavelength_labels (s e : Z) :
  length (wavelength_labels s e) = S (Z.to_nat (e + 1 - s)).
Proof. unfold wavelength_labels. cbn [length]. now rewrite length_map, length_zrange. Qed.

(** X15.  The newer [load_data_new] on a file that parses.  When the table
    has one column more than there are wavelengths from [start_wavelength]
    to [end_wavelength], it is returned with the labels 'Row/Col',
    [start_wavelength], ..., [end_wavelength], its cells and rows as parsed,
    and nothing is logged.  With any other number of columns the caller
    gets the empty table and the log line of a file that could not be
    loaded: the data that was read is dropped. *)
Theorem curve_fitting_load_data_new_relabels
        (read_csv : csv_reader) (path : string) (start_wavelength end_wavelength : Z)
        (parsed : DataFrame) :
  read_csv path false = Ok parsed ->
  (length (columns parsed) = S (Z.to_nat (end_wavelength + 1 - start_wavelength)) ->
   exists df,
     CurveFitting.load_data_new read_csv path start_wavelength end_wavelength = (df, []) /\
     labels df = wavelength_labels start_wavelength end_wavelength /\
     map snd (columns df) = map snd (columns parsed) /\
     index_len df = index_len parsed) /\
  (length (columns parsed) <> S (Z.to_nat (end_wavelength + 1 - start_wavelength)) ->
   CurveFitting.load_data_new read_csv path start_wavelength end_wavelength
   = (empty_frame, [("Error loading file: "%string, ValueError)])).
Proof.
  intros R. unfold CurveFitting.load_data_new. rewrite R. cbn [bind].
  fold (wavelength_labels start_wavelength end_wavelength).
  rewrite <- length_wavelength_labels. split; intros L.
  - destruct (set_columns_ok parsed _ L) as [out E]. rewrite E.
    exists out. split; [reflexivity|]. now apply set_columns_keeps_cells.
  - now rewrite set_columns_mismatch.
Qed.

Lemma curve_fitting_load_data_new_relabels_witness :
  (exists df,
     CurveFitting.load_data_new two_wells_disk "wells.csv" 220 221 = (df, []) /\
     labels df = wavelength_labels 220 221 /\
     map snd (columns df) = map snd (columns two_wells_parsed) /\
     index_len df = index_len two_wells_parsed) /\
  CurveFitting.load_data_new two_wells_disk "wells.csv" 220 1000
  = (empty_frame, [("Error loading file: "%string, ValueError)]).
Proof.
  split.
  - apply (proj1 (@curve_fitting_load_data_new_relabels
                    two_wells_disk "wells.csv" 220 221 two_wells_parsed eq_refl)).
    reflexivity.
  - apply (proj2 (@curve_fitting_load_data_new_relabels
                    two_wells_disk "wells.csv" 220 1000 two_wells_parsed eq_refl)).
    vm_compute. lia.
Defined.

(** X16.  The older [load_data_new] on a file that parses: a table of
    exactly 782 columns is returned with the labels 'Row/Col', 220, ...,
    1000 and its cells and rows as parsed; any other number of columns
    raises ValueError. *)
Theorem background_load_data_new_relabels
        (read_csv : csv_reader) (path : string) (parsed : DataFrame) :
  read_csv path false = Ok parsed ->
  (length (columns parsed) = 782%nat ->
   exists df,
     BackgroundCorrection.load_data_new read_csv path = Ok df /\
     labels df = reader_labels /\
     map snd (columns df) = map snd (columns parsed) /\
     index_len df = index_len parsed) /\
  (length (columns parsed) <> 782%nat ->
   BackgroundCorrection.load_data_new read_csv path = Raise ValueError).
Proof.
  intros R. unfold BackgroundCorrection.load_data_new. rewrite R. cbn [bind].
  fold reader_labels.
  assert (L782 : length reader_labels = 782%nat).
  { unfold reader_labels. cbn [length]. now rewrite length_map, length_zrange. }
  rewrite <- L782. split; intros L.
  - destruct (set_columns_ok parsed _ L) as [out E]. rewrite E.
    exists out. split; [reflexivity|]. now apply set_columns_keeps_cells.
  - now rewrite set_columns_mismatch.
Qed.

Lemma background_load_data_new_relabels_witness :
  (exists df,
     BackgroundCorrection.load_data_new toluene_files BackgroundCorrection.plate_path = Ok df /\
     labels df = reader_labels /\
     map snd (columns df) = map snd (columns (reading (fun _ => 1))) /\
     index_len df = index_len (reading (fun _ => 1))) /\
  BackgroundCorrection.load_data_new two_wells_disk "wells.csv" = Raise ValueError.
Proof.
  split.
  - apply (proj1 (@background_load_data_new_relabels
                    toluene_files BackgroundCorrection.plate_path (reading (fun _ => 1)) eq_refl)).
    vm_compute. reflexivity.
  - apply (proj2 (@background_load_data_new_relabels
                    two_wells_disk "wells.csv" two_wells_parsed eq_refl)).
    vm_compute. lia.
Defined.

(* ================================================================= *)
(** ** Preparing the reference spectra *)

Lemma values_row0_raises (f : NumFrame) (e : exn) :
  values_row0 f = Raise e -> e = IndexError.
Proof.
  unfold values_row0. destruct (Nat.eqb (index_len f) 0); [|discriminate].
  now intros [= <-].
Qed.

Lemma load_data_new_cases (read_csv : csv_reader) (path : string) (s e : Z) :
  (exists df, (df <- read_csv path false ;; set_columns df (wavelength_labels s e)) = Ok df /\
              CurveFitting.load_data_new read_csv path s e = (df, [])) \/
  (exists line, CurveFitting.load_data_new read_csv path s e = (empty_frame, [line]) /\
                (fst line = "Error: File not found - " \/ fst line = "Error: Empty file - " \/
                 fst line = "Error loading file: ")%string).
Proof.
  unfold CurveFitting.load_data_new. fold (wavelength_labels s e).
  destruct (df <- read_csv path false ;; set_columns df (wavelength_labels s e)) as [df|err].
  - left. now exists df.
  - right. destruct err; eexists; (split; [reflexivity|]); cbn [fst]; auto.
Qed.

Lemma prepare_row_of_empty (f : NumFrame) (rs : nat) (re : option nat) :
  (s <- values_row0 (select_number empty_frame) ;;
   p <- values_row0 f ;;
   Ok (slice rs re s, slice rs re p)) = Raise IndexError.
Proof. reflexivity. Qed.

(** X17.  The newer [prepare_spectra] when the styrene file cannot be read,
    whatever the exception: it returns [(None, None)].  The log holds the
    line of the failed load, then whatever loading the polystyrene file
    logged (that file is still read), then 'Error in preparing spectra'
    with an IndexError, the error of taking row 0 of the empty table that
    the failed load returned. *)
Theorem prepare_spectra_unreadable_reference
        (read_csv : csv_reader) (styrene_path polystyrene_path : string)
        (range_start : nat) (range_end : option nat) (e : exn) :
  read_csv styrene_path false = Raise e ->
  exists line,
    snd line = e /\
    CurveFitting.prepare_spectra read_csv styrene_path polystyrene_path range_start range_end
    = ((None, None),
       line :: snd (CurveFitting.load_data_new read_csv polystyrene_path 220 1000)
            ++ [("Error in preparing spectra: "%string, IndexError)]).
Proof.
  intros R.
  assert (L : exists line,
             CurveFitting.load_data_new read_csv styrene_path 220 1000
             = (empty_frame, [line]) /\ snd line = e).
  { unfold CurveFitting.load_data_new. rewrite R. cbn [bind].
    destruct e; eexists; split; reflexivity. }
  destruct L as [line [L S]].
  exists line. split; [exact S|].
  unfold CurveFitting.prepare_spectra. rewrite L.
  destruct (CurveFitting.load_data_new read_csv polystyrene_path 220 1000) as [poly log2].
  unfold CurveFitting.separate_columns. rewrite prepare_row_of_empty. reflexivity.
Qed.

Lemma prepare_spectra_unreadable_reference_witness :
  exists line,
    snd line = FileNotFoundError /\
    CurveFitting.prepare_spectra no_files "styrene.csv" "polystyrene.csv" 0 (Some 780%nat)
    = ((None, None),
       line :: snd (CurveFitting.load_data_new no_files "polystyrene.csv" 220 1000)
            ++ [("Error in preparing spectra: "%string, IndexError)]).
Proof.
  apply (@prepare_spectra_unreadable_reference no_files "styrene.csv" "polystyrene.csv"
           0 (Some 780%nat) FileNotFoundError).
  reflexivity.
Defined.

Lemma load_log_lines (read_csv : csv_reader) (path : string) (s e : Z) (line : log_line) :
  In line (snd (CurveFitting.load_data_new read_csv path s e)) ->
  (fst line = "Error: File not found - " \/ fst line = "Error: Empty file - " \/
   fst line = "Error loading file: ")%string.
Proof.
  destruct (load_data_new_cases read_csv path s e) as [[df [_ E]]|[l [E H]]];
    rewrite E; cbn [snd]; intros Hin.
  - contradiction.
  - destruct Hin as [<-|[]]. exact H.
Qed.

(** X18.  The [except FileNotFoundError] branch of the newer
    [prepare_spectra] never runs: for every reader, every pair of paths and
    every range, the line 'Error: File not found. ' is absent from what
    [prepare_spectra] logs.  A missing file is caught inside
    [load_data_new] and reaches [prepare_spectra] as an IndexError. *)
Theorem prepare_spectra_never_reports_file_not_found
        (read_csv : csv_reader) (styrene_path polystyrene_path : string)
        (range_start : nat) (range_end : option nat) (e : exn) :
  ~ In ("Error: File not found. "%string, e)
       (snd (CurveFitting.prepare_spectra read_csv styrene_path polystyrene_path
                                          range_start range_end)).
Proof.
  unfold CurveFitting.prepare_spectra.
  pose proof (@load_log_lines read_csv styrene_path 220 1000) as H1.
  pose proof (@load_log_lines read_csv polystyrene_path 220 1000) as H2.
  destruct (CurveFitting.load_data_new read_csv styrene_path 220 1000) as [sty log1].
  destruct (CurveFitting.load_data_new read_csv polystyrene_path 220 1000) as [poly log2].
  cbn [snd] in H1, H2. unfold CurveFitting.separate_columns.
  assert (Hlogs : ~ In ("Error: File not found. "%string, e) (log1 ++ log2)).
  { intros Hin. apply in_app_iff in Hin as [Hin|Hin];
      [apply H1 in Hin|apply H2 in Hin]; cbn [fst] in Hin;
      destruct Hin as [Hin|[Hin|Hin]]; discriminate. }
  destruct (values_row0 (select_number sty)) as [s|e1] eqn:V1; cbn [bind].
  - destruct (values_row0 (select_number poly)) as [p|e2] eqn:V2; cbn [bind snd].
    + exact Hlogs.
    + apply values_row0_raises in V2. subst e2. cbn [snd].
      rewrite app_assoc. intros Hin. apply in_app_iff in Hin as [Hin|[Hin|[]]].
      * now apply Hlogs.
      * discriminate.
  - apply values_row0_raises in V1. subst e1. cbn [snd].
    rewrite app_assoc. intros Hin. apply in_app_iff in Hin as [Hin|[Hin|[]]].
    * now apply Hlogs.
    * discriminate.
Qed.

Lemma prepare_spectra_never_reports_file_not_found_witness :
  ~ In ("Error: File not found. "%string, FileNotFoundError)
       (snd (CurveFitting.prepare_spectra no_files "styrene.csv" "polystyrene.csv"
                                          0 (Some 780%nat))).
Proof.
  apply (@prepare_spectra_never_reports_file_not_found no_files "styrene.csv"
           "polystyrene.csv" 0 (Some 780%nat) FileNotFoundError).
Defined.

Lemma background_load_is_curve_fitting_load (read_csv : csv_reader) (path : string)
      (df : DataFrame) :
  BackgroundCorrection.load_data_new read_csv path = Ok df <->
  (CurveFitting.load_data_new read_csv path 220 1000 = (df, []) /\
   (df <- read_csv path false ;; set_columns df (wavelength_labels 220 1000)) = Ok df).
Proof.
  unfold BackgroundCorrection.load_data_new, CurveFitting.load_data_new.
  change (LStr "Row/Col" :: map LInt (zrange 220 (1000 + 1)))
    with (wavelength_labels 220 1000).
  change (LStr "Row/Col" :: map LInt (zrange 220 1001))
    with (wavelength_labels 220 1000).
  destruct (d <- read_csv path false ;; set_columns d (wavelength_labels 220 1000))
    as [d|err].
  - split; [intros [= ->]; now split|intros [_ H]; exact H].
  - split; [discriminate|intros [_ H]; discriminate].
Qed.

(** X19.  Where the older [prepare_spectra] returns two spectra, the newer
    one (with its default wavelengths 220 to 1000) returns the same two and
    logs nothing. *)
Theorem prepare_spectra_agree
        (read_csv : csv_reader) (styrene_path polystyrene_path : string)
        (range_start : nat) (range_end : option nat) (s p : ndarray) :
  BackgroundCorrection.prepare_spectra read_csv styrene_path polystyrene_path
                                       range_start range_end = Ok (s, p) ->
  CurveFitting.prepare_spectra read_csv styrene_path polystyrene_path range_start range_end
  = ((Some s, Some p), []).
Proof.
  unfold BackgroundCorrection.prepare_spectra, CurveFitting.prepare_spectra.
  intros E.
  destruct (BackgroundCorrection.load_data_new read_csv styrene_path) as [d1|e1] eqn:L1;
    cbn [bind] in E; [|discriminate].
  destruct (BackgroundCorrection.load_data_new read_csv polystyrene_path) as [d2|e2] eqn:L2;
    cbn [bind] in E; [|discriminate].
  apply background_load_is_curve_fitting_load in L1 as [L1 _].
  apply background_load_is_curve_fitting_load in L2 as [L2 _].
  rewrite L1, L2.
  unfold BackgroundCorrection.separate_columns in E. unfold CurveFitting.separate_columns.
  rewrite E. reflexivity.
Qed.

Lemma prepare_spectra_agree_witness :
  CurveFitting.prepare_spectra toluene_files BackgroundCorrection.plate_path
    BackgroundCorrection.data_path 40 (Some 42%nat)
  = ((Some [Fin 1; Fin 1], Some [Fin 2; Fin 2]), []).
Proof.
  apply (@prepare_spectra_agree toluene_files BackgroundCorrection.plate_path
           BackgroundCorrection.data_path 40 (Some 42%nat) [Fin 1; Fin 1] [Fin 2; Fin 2]).
  vm_compute. reflexivity.
Defined.

(* ================================================================= *)
(** ** The batch in the two scripts *)

Lemma map_result_ok_ext {A B : Type} (f g : A -> result B) (xs : list A) (ys : list B) :
  (forall a b, In a xs -> f a = Ok b -> g a = Ok b) ->
  map_result f xs = Ok ys -> map_result g xs = Ok ys.
Proof.
  revert ys. induction xs as [|a xs IH]; intros ys H E; [exact E|].
  cbn [map_result] in *.
  destruct (f a) as [b|e] eqn:Fa; cbn [bind] in E; [|discriminate].
  rewrite (H a b (or_introl eq_refl) Fa). cbn [bind].
  destruct (map_result f xs) as [bs|e] eqn:M; cbn [bind] in E; [|discriminate].
  rewrite (IH bs); [exact E| |reflexivity].
  intros a' b' Hin. apply H. now right.
Qed.

Lemma map_result_first_raise {A B : Type} (f : A -> result B)
      (pre : list A) (a : A) (post : list A) (e : exn) :
  (forall p, In p pre -> exists b, f p = Ok b) ->
  f a = Raise e ->
  map_result f (pre ++ a :: post) = Raise e.
Proof.
  intros Hpre Ha. induction pre as [|p pre IH]; cbn [app map_result].
  - now rewrite Ha.
  - destruct (Hpre p (or_introl eq_refl)) as [b Hb]. rewrite Hb. cbn [bind].
    rewrite IH; [reflexivity|]. intros q Hq. apply Hpre. now right.
Qed.

Lemma seq_split_at (n i : nat) :
  (i < n)%nat -> seq 0 n = seq 0 i ++ i :: seq (S i) (n - S i).
Proof.
  intros H. replace n with (i + S (n - S i))%nat at 1 by lia.
  rewrite seq_app. reflexivity.
Qed.

Lemma process_sample_agree
      (minimize : minimizer) (data_df volumes_df : DataFrame) (styrene polystyrene : ndarray)
      (range_start : nat) (range_end : option nat) (i : nat) (r : num * num * num * num) :
  BackgroundCorrection.process_sample minimize data_df volumes_df styrene polystyrene
                                      range_start range_end i = Ok r <->
  CurveFitting.process_sample data_df volumes_df styrene polystyrene range_start range_end
                              (CurveFitting.by_least_squares minimize) i = Ok r.
Proof.
  unfold BackgroundCorrection.process_sample, CurveFitting.process_sample,
    CurveFitting.fit_spectra, CurveFitting.by_least_squares,
    CurveFitting.least_squares_deconvolution, BackgroundCorrection.fit_spectra.
  change (BackgroundCorrection.residuals) with (CurveFitting.residuals).
  destruct (minimize _ _ _) as [res|e]; cbn [bind fst].
  - destruct (x res) as [c1 c2]. reflexivity.
  - split; discriminate.
Qed.

(** X20.  The two [process_samples] return the same lists: with
    [least_squares_deconvolution] as the method, the newer one returns four
    lists exactly when the older one returns them, for every optimizer,
    table, pair of reference spectra and range. *)
Theorem process_samples_agree
        (minimize : minimizer) (data_df volumes_df : DataFrame) (styrene polystyrene : ndarray)
        (range_start : nat) (range_end : option nat)
        (lists : list num * list num * list num * list num) :
  BackgroundCorrection.process_samples minimize data_df volumes_df styrene polystyrene
                                       range_start range_end = Ok lists <->
  CurveFitting.process_samples data_df volumes_df styrene polystyrene range_start range_end
                               (CurveFitting.by_least_squares minimize) = Ok lists.
Proof.
  unfold BackgroundCorrection.process_samples, CurveFitting.process_samples.
  split; intros E.
  - destruct (map_result (BackgroundCorrection.process_sample _ _ _ _ _ _ _) _)
      as [rows|e] eqn:M; cbn [bind] in E; [|discriminate].
    rewrite (@map_result_ok_ext _ _ _
               (CurveFitting.process_sample data_df volumes_df styrene polystyrene
                  range_start range_end (CurveFitting.by_least_squares minimize))
               _ rows (fun a b _ => proj1 (process_sample_agree _ _ _ _ _ _ _ a b)) M).
    exact E.
  - destruct (map_result (CurveFitting.process_sample _ _ _ _ _ _ _) _)
      as [rows|e] eqn:M; cbn [bind] in E; [|discriminate].
    rewrite (@map_result_ok_ext _ _ _
               (BackgroundCorrection.process_sample minimize data_df volumes_df styrene
                  polystyrene range_start range_end)
               _ rows (fun a b _ => proj2 (process_sample_agree _ _ _ _ _ _ _ a b)) M).
    exact E.
Qed.

Lemma process_samples_agree_witness :
  CurveFitting.process_samples two_wells two_wells_volumes [Fin 1; Fin 0] [Fin 0; Fin 1]
                               0 None (CurveFitting.by_least_squares feasible_start)
  = Ok two_wells_lists.
Proof.
  apply (proj1 (@process_samples_agree feasible_start two_wells two_wells_volumes
                  [Fin 1; Fin 0] [Fin 0; Fin 1] 0 None two_wells_lists)).
  vm_compute. reflexivity.
Defined.

(** X21.  In the newer script a fit that fails ends the whole batch with
    TypeError.  If the method raises or returns [None] on the spectrum of
    row [i] (so that [fit_spectra] returns [None]) and the rows before it
    were processed, [process_samples] raises TypeError, the error of
    unpacking [None]: the lists built so far are lost and the exception of
    the method is not the one raised. *)
Theorem failed_fit_ends_batch_with_type_error
        (method : CurveFitting.deconvolution_method) (data_df volumes_df : DataFrame)
        (styrene polystyrene : ndarray) (range_start : nat) (range_end : option nat)
        (i : nat) :
  (i < index_len data_df)%nat ->
  (forall j, (j < i)%nat ->
     exists r, CurveFitting.process_sample data_df volumes_df styrene polystyrene
                 range_start range_end method j = Ok r) ->
  fst (CurveFitting.fit_spectra (spectrum_of data_df range_start range_end i)
                                styrene polystyrene method) = None ->
  CurveFitting.process_samples data_df volumes_df styrene polystyrene
                               range_start range_end method = Raise TypeError.
Proof.
  intros Hi Hpre Hfit. unfold CurveFitting.process_samples.
  rewrite (seq_split_at Hi).
  rewrite (@map_result_first_raise _ _ _ _ _ _ TypeError); [reflexivity| |].
  - intros j Hj. apply in_seq in Hj. apply Hpre. lia.
  - unfold CurveFitting.process_sample. unfold spectrum_of in Hfit. now rewrite Hfit.
Qed.

Lemma failed_fit_ends_batch_with_type_error_witness :
  CurveFitting.process_samples two_wells two_wells_volumes [Fin 1; Fin 0] [Fin 0; Fin 1]
                               0 None failing_method = Raise TypeError.
Proof.
  apply (@failed_fit_ends_batch_with_type_error failing_method two_wells two_wells_volumes
           [Fin 1; Fin 0] [Fin 0; Fin 1] 0 None 0).
  - simpl. lia.
  - intros j Hj. lia.
  - reflexivity.
Defined.

(** X22.  What becomes of an exception of the optimizer.  If [minimize]
    raises [e] on the spectrum of row [i] and the rows before it were
    processed, the older [process_samples] raises [e] itself, while the
    newer one, whose [fit_spectra] catches [e], raises TypeError. *)
Theorem optimizer_exception_by_script
        (minimize : minimizer) (data_df volumes_df : DataFrame)
        (styrene polystyrene : ndarray) (range_start : nat) (range_end : option nat)
        (i : nat) (e : exn) :
  (i < index_len data_df)%nat ->
  (forall j, (j < i)%nat ->
     exists r, BackgroundCorrection.process_sample minimize data_df volumes_df styrene
                 polystyrene range_start range_end j = Ok r) ->
  minimize (CurveFitting.residuals (spectrum_of data_df range_start range_end i)
                                   styrene polystyrene)
           start nonnegative_box = Raise e ->
  BackgroundCorrection.process_samples minimize data_df volumes_df styrene polystyrene
                                       range_start range_end = Raise e /\
  CurveFitting.process_samples data_df volumes_df styrene polystyrene range_start range_end
                               (CurveFitting.by_least_squares minimize) = Raise TypeError.
Proof.
  intros Hi Hpre Hmin. split.
  - unfold BackgroundCorrection.process_samples. rewrite (seq_split_at Hi).
    rewrite (@map_result_first_raise _ _ _ _ _ _ e); [reflexivity| |].
    + intros j Hj. apply in_seq in Hj. apply Hpre. lia.
    + unfold BackgroundCorrection.process_sample, BackgroundCorrection.fit_spectra.
      change (BackgroundCorrection.residuals) with (CurveFitting.residuals).
      unfold spectrum_of, start, nonnegative_box in Hmin. now rewrite Hmin.
  - unfold CurveFitting.process_samples. rewrite (seq_split_at Hi).
    rewrite (@map_result_first_raise _ _ _ _ _ _ TypeError); [reflexivity| |].
    + intros j Hj. apply in_seq in Hj. destruct (Hpre j) as [r Hr]; [lia|].
      exists r. now apply process_sample_agree.
    + unfold CurveFitting.process_sample, CurveFitting.fit_spectra,
        CurveFitting.by_least_squares, CurveFitting.least_squares_deconvolution.
      unfold spectrum_of, start, nonnegative_box in Hmin. now rewrite Hmin.
Qed.

Lemma optimizer_exception_by_script_witness :
  BackgroundCorrection.process_samples failing_minimize two_wells two_wells_volumes
    [Fin 1; Fin 0] [Fin 0; Fin 1] 0 None = Raise RuntimeError /\
  CurveFitting.process_samples two_wells two_wells_volumes [Fin 1; Fin 0] [Fin 0; Fin 1]
    0 None (CurveFitting.by_least_squares failing_minimize) = Raise TypeError.
Proof.
  apply (@optimizer_exception_by_script failing_minimize two_wells two_wells_volumes
           [Fin 1; Fin 0] [Fin 0; Fin 1] 0 None 0 RuntimeError).
  - simpl. lia.
  - intros j Hj. lia.
  - reflexivity.
Defined.

Lemma iloc_cell_ok (df : DataFrame) (i j : nat) (v : value) :
  iloc_cell df i j = Ok v ->
  exists lc, nth_error (columns df) j = Some lc /\ (i < col_length (snd lc))%nat.
Proof.
  unfold iloc_cell. destruct (nth_error (columns df) j) as [[l [xs|xs]]|] eqn:N;
    [| |discriminate].
  - destruct (nth_error xs i) eqn:X; [|discriminate]. intros _.
    exists (l, NumCol xs). split; [reflexivity|]. cbn [snd col_length].
    apply nth_error_Some. congruence.
  - destruct (nth_error xs i) eqn:X; [|discriminate]. intros _.
    exists (l, ObjCol xs). split; [reflexivity|]. cbn [snd col_length].
    apply nth_error_Some. congruence.
Qed.

Lemma volume_columns_long_enough (volumes_df : DataFrame) (n : nat) :
  (0 < n)%nat ->
  (forall i, (i < n)%nat ->
     exists v0 v1, iloc_cell volumes_df i 0 = Ok v0 /\ iloc_cell volumes_df i 1 = Ok v1) ->
  exists c0 c1 rest,
    columns volumes_df = c0 :: c1 :: rest /\
    (n <= col_length (snd c0))%nat /\ (n <= col_length (snd c1))%nat.
Proof.
  intros Hn H. destruct (H (n - 1)%nat) as [v0 [v1 [H0 H1]]]; [lia|].
  apply iloc_cell_ok in H0 as [c0 [N0 L0]]. apply iloc_cell_ok in H1 as [c1 [N1 L1]].
  destruct (columns volumes_df) as [|d0 [|d1 rest]]; try discriminate.
  injection N0 as ->. injection N1 as ->.
  exists c0, c1, rest. split; [reflexivity|]. lia.
Qed.

(** X23.  [process_samples] checks nothing about the volume table, yet it
    cannot return without it reaching as far as the data: whenever either
    script returns the four lists for a data table with at least one row,
    the volume table has at least two columns, and its first two columns
    have at least as many rows as the data table. *)
Theorem process_samples_needs_volume_rows
        (minimize : minimizer) (method : CurveFitting.deconvolution_method)
        (data_df volumes_df : DataFrame) (styrene polystyrene : ndarray)
        (range_start : nat) (range_end : option nat)
        (lists : list num * list num * list num * list num) :
  (0 < index_len data_df)%nat ->
  CurveFitting.process_samples data_df volumes_df styrene polystyrene
                               range_start range_end method = Ok lists \/
  BackgroundCorrection.process_samples minimize data_df volumes_df styrene polystyrene
                                       range_start range_end = Ok lists ->
  exists c0 c1 rest,
    columns volumes_df = c0 :: c1 :: rest /\
    (index_len data_df <= col_length (snd c0))%nat /\
    (index_len data_df <= col_length (snd c1))%nat.
Proof.
  intros Hn [E|E]; apply (volume_columns_long_enough volumes_df Hn); intros i Hi.
  - unfold CurveFitting.process_samples in E.
    destruct (map_result _ _) as [rows|e] eqn:M; cbn [bind] in E; [|discriminate].
    apply map_result_inv in M as [_ M].
    destruct (M i i) as [[[[c1 a1] c2] a2] [_ P]].
    { rewrite nth_error_seq. now apply Nat.ltb_lt in Hi as ->. }
    apply curve_fitting_process_sample_inv in P as [_ [v0 [v1 [H0 [H1 _]]]]].
    now exists v0, v1.
  - unfold BackgroundCorrection.process_samples in E.
    destruct (map_result _ _) as [rows|e] eqn:M; cbn [bind] in E; [|discriminate].
    apply map_result_inv in M as [_ M].
    destruct (M i i) as [[[[c1 a1] c2] a2] [_ P]].
    { rewrite nth_error_seq. now apply Nat.ltb_lt in Hi as ->. }
    apply background_process_sample_inv in P as [_ [v0 [v1 [H0 [H1 _]]]]].
    now exists v0, v1.
Qed.

Lemma process_samples_needs_volume_rows_witness :
  exists c0 c1 rest,
    columns two_wells_volumes = c0 :: c1 :: rest /\
    (index_len two_wells <= col_length (snd c0))%nat /\
    (index_len two_wells <= col_length (snd c1))%nat.
Proof.
  apply (@process_samples_needs_volume_rows feasible_start
           (CurveFitting.by_least_squares feasible_start) two_wells two_wells_volumes
           [Fin 1; Fin 0] [Fin 0; Fin 1] 0 None two_wells_lists).
  - simpl. lia.
  - left. vm_compute. reflexivity.
Defined.

(* ================================================================= *)
(** ** Training and test samples *)

(** X24.  The split of [curve_fitting_lin_reg], [xs[:-20]] and [xs[-20:]],
    cuts the list of samples in two: the training part followed by the test
    part is the list itself, the test part holds the last 20 samples (all
    of them when there are fewer), and with 20 samples or fewer nothing is
    left to train on.  Both scripts split the same way. *)
Theorem train_test_partitions_the_samples (xs : list num) :
  fst (CurveFitting.train_test xs) ++ snd (CurveFitting.train_test xs) = xs /\
  length (snd (CurveFitting.train_test xs)) = Nat.min 20 (length xs) /\
  ((length xs <= 20)%nat -> fst (CurveFitting.train_test xs) = []) /\
  BackgroundCorrection.train_test xs = CurveFitting.train_test xs.
Proof.
  unfold CurveFitting.train_test, BackgroundCorrection.train_test, drop_last, take_last.
  cbn [fst snd]. split; [apply firstn_skipn|]. split; [rewrite length_skipn; lia|].
  split; [|reflexivity].
  intros H. replace (length xs - 20)%nat with O by lia. reflexivity.
Qed.

Lemma train_test_partitions_the_samples_witness :
  fst (CurveFitting.train_test [Fin 1; Fin 2]) = [].
Proof.
  apply (proj1 (proj2 (proj2 (train_test_partitions_the_samples [Fin 1; Fin 2])))).
  simpl. lia.
Defined.

(* ================================================================= *)
(** ** An input file that cannot be read *)

(** X25.  [main] of the older script has no handler of its own: when
    loading the plate file raises [e], or the plate file loads and loading
    the data file raises [e], [main] raises [e] and leaves the console and
    the files as they were. *)
Theorem main_stops_on_unreadable_input (read_csv : csv_reader) (w : world) (e : exn) :
  BackgroundCorrection.load_data_new read_csv BackgroundCorrection.plate_path = Raise e \/
  (exists plate,
     BackgroundCorrection.load_data_new read_csv BackgroundCorrection.plate_path = Ok plate /\
     BackgroundCorrection.load_data_new read_csv BackgroundCorrection.data_path = Raise e) ->
  BackgroundCorrection.main read_csv w = (w, Raise e).
Proof.
  intros [P|[plate [P D]]]; unfold BackgroundCorrection.main, io_bind, lift.
  - now rewrite P.
  - now rewrite P, D.
Qed.

Lemma main_stops_on_unreadable_input_witness :
  BackgroundCorrection.main no_files (mkWorld [] []) = (mkWorld [] [], Raise FileNotFoundError).
Proof.
  apply (@main_stops_on_unreadable_input no_files (mkWorld [] []) FileNotFoundError).
  left. reflexivity.
Defined.
